(** * deploy.py: the VeChain deployment script of Uniswap V2

    A shallow embedding of [src/deploy.py].  Python values that come out of
    JSON documents are kept dynamically typed ([pyval]); the node, the
    operating system's random source, the file system, the clock and the
    standard output are gathered in a [World] that every effectful function
    threads through; Python exceptions are the [Raise] outcomes of a small
    state-and-exception monad.  The functions of [thor_devkit] (ABI coder,
    transaction encoder, secp256k1) are outside the repository and are taken
    as parameters ([Externals]). *)

From Stdlib Require Import ZArith NArith String Ascii List Lia Bool.
From Stdlib Require Import Floats.SpecFloat.
From Stdlib Require DecimalString.
From stdpp Require Import base option gmap strings list.

Set Warnings "-register-all".

Local Open Scope Z_scope.
Local Open Scope string_scope.

(** ** Python values *)

Abbreviation bytes := (list Byte.byte).

(** What [json.load] and [requests.Response.json] produce, and what the
    script passes around: [None], booleans, integers, floats (binary64, as
    specified by [SpecFloat]), strings, lists and string-keyed dicts. *)
Inductive pyval :=
| VNone
| VBool (b : bool)
| VInt (z : Z)
| VFloat (f : spec_float)
| VStr (s : string)
| VList (l : list pyval)
| VDict (m : gmap string pyval).

(** The exceptions the script can raise.  [Exception] is the class of every
    explicit [raise] statement of the source; [AssertionError] comes from
    its two [assert] statements; the others are raised by the interpreter
    or by a library. *)
Inductive exn :=
| Exception (msg : string)
| AssertionError (msg : string)
| KeyError (key : string)
| IndexError
| TypeError
| ValueError
| AttributeError
| OverflowError
| ZeroDivisionError
| OSError
| LibraryError.

Inductive result (A : Type) :=
| Ok (a : A)
| Raise (e : exn).
Arguments Ok {A} a.
Arguments Raise {A} e.

#[global] Instance result_ret : MRet result := fun A a => Ok a.
#[global] Instance result_bind : MBind result := fun A B f r =>
  match r with
  | Ok a => f a
  | Raise e => Raise e
  end.

(** Python truthiness, as tested by [if x:] and [not x]. *)
Definition truthy (v : pyval) : bool :=
  match v with
  | VNone => false
  | VBool b => b
  | VInt z => negb (Z.eqb z 0)
  | VFloat f => match f with S754_zero _ => false | _ => true end
  | VStr s => negb (String.eqb s "")
  | VList l => negb (Nat.eqb (length l) 0)
  | VDict m => negb (Nat.eqb (size m) 0)
  end.

(** [d[key]] for a string key. *)
Definition getitem (d : pyval) (key : string) : result pyval :=
  match d with
  | VDict m =>
      match m !! key with
      | Some v => Ok v
      | None => Raise (KeyError key)
      end
  | _ => Raise TypeError
  end.

(** [d.get(key)]: only dicts have the method. *)
Definition dict_get (d : pyval) (key : string) : result pyval :=
  match d with
  | VDict m => Ok (default VNone (m !! key))
  | _ => Raise AttributeError
  end.

(** [x[0:18]], the slice of a sequence.  Slicing never goes out of range:
    a shorter sequence is returned whole.  (Slicing a dict fails, with a
    [TypeError] before Python 3.12.) *)
Definition slice_0_18 (x : pyval) : result pyval :=
  match x with
  | VStr s => Ok (VStr (substring 0 18 s))
  | VList l => Ok (VList (take 18 l))
  | _ => Raise TypeError
  end.

(** [a[0]] on a list. *)
Definition list_first (a : list pyval) : result pyval :=
  match a with
  | [] => Raise IndexError
  | x :: _ => Ok x
  end.

(** The values a [for] loop runs over.  A dict yields its keys and a string
    its characters (the order of a dict's keys is the map's here; the one
    loop of the script fails on the first key whichever it is). *)
Definition py_iter (v : pyval) : result (list pyval) :=
  match v with
  | VList l => Ok l
  | VDict m => Ok (VStr <$> (map_to_list m).*1)
  | VStr s => Ok ((fun c => VStr (String c "")) <$> list_ascii_of_string s)
  | _ => Raise TypeError
  end.

(** ** Hexadecimal text *)

Definition hex_digit (n : N) : ascii :=
  nth (N.to_nat n) (list_ascii_of_string "0123456789abcdef") "0"%char.

Definition hex_value (c : ascii) : option Z :=
  let n := Z.of_N (N_of_ascii c) in
  if ((48 <=? n) && (n <=? 57))%Z then Some (n - 48)
  else if ((97 <=? n) && (n <=? 102))%Z then Some (n - 87)
  else if ((65 <=? n) && (n <=? 70))%Z then Some (n - 55)
  else None.

Definition hex_of_byte (b : Byte.byte) : string :=
  let n := Byte.to_N b in
  String (hex_digit (n / 16)) (String (hex_digit (n mod 16)) "").

(** [b.hex()] *)
Fixpoint bytes_hex (bs : bytes) : string :=
  match bs with
  | [] => ""
  | b :: bs' => hex_of_byte b ++ bytes_hex bs'
  end.

Definition is_space (c : ascii) : bool :=
  let n := N_of_ascii c in ((9 <=? n) && (n <=? 13) || (n =? 32))%N.

(** [bytes.fromhex(s)]: two digits per byte, ASCII whitespace allowed
    between bytes. *)
Fixpoint bytes_fromhex (s : string) : result bytes :=
  match s with
  | "" => Ok []
  | String c s' =>
      if is_space c then bytes_fromhex s'
      else
        match s' with
        | "" => Raise ValueError
        | String d s'' =>
            match hex_value c, hex_value d with
            | Some h, Some l =>
                match Byte.of_N (Z.to_N (16 * h + l)) with
                | Some b => rest ← bytes_fromhex s''; Ok (b :: rest)
                | None => Raise ValueError
                end
            | _, _ => Raise ValueError
            end
        end
  end.

(** The blanks that [int] skips around a number. A character being a code
    point below 256, these are the ASCII blanks and the two other blanks of
    that range, U+0085 and U+00A0, which [int] turns into spaces first. *)
Definition int_space (c : ascii) : bool :=
  let n := N_of_ascii c in (is_space c || (n =? 133) || (n =? 160))%N.

Fixpoint skip_spaces (s : string) : string :=
  match s with
  | "" => ""
  | String c s' => if int_space c then skip_spaces s' else s
  end.

(** An optional sign: whether it is [-], and what follows it. *)
Definition strip_sign (s : string) : bool * string :=
  match s with
  | "" => (false, "")
  | String c s' =>
      if Ascii.eqb c "-" then (true, s')
      else if Ascii.eqb c "+" then (false, s')
      else (false, s)
  end.

(** An optional [0x] or [0X], after which one underscore may stand. *)
Definition strip_0x (s : string) : string :=
  match s with
  | String c (String d s') =>
      if Ascii.eqb c "0" && (Ascii.eqb d "x" || Ascii.eqb d "X")
      then match s' with
           | String u s'' => if Ascii.eqb u "_" then s'' else s'
           | "" => s'
           end
      else s
  | _ => s
  end.

(** The digits, with single underscores between them: the value read and
    the text left, or nothing when two underscores meet or one ends the
    digits. [prev] tells that the character before was an underscore. *)
Fixpoint hex_scan (s : string) (prev : bool) (acc : Z) : option (Z * string) :=
  match s with
  | "" => if prev then None else Some (acc, "")
  | String c s' =>
      if Ascii.eqb c "_" then (if prev then None else hex_scan s' true acc)
      else
        match hex_value c with
        | Some v => hex_scan s' false (16 * acc + v)
        | None => if prev then None else Some (acc, s)
        end
  end.

(** What [int] reads after the sign and the prefix: at least one digit,
    first, then blanks only up to the end. *)
Definition int16_digits (negative : bool) (ds : string) : result Z :=
  match ds with
  | "" => Raise ValueError
  | String c _ =>
      match hex_value c, hex_scan ds false 0 with
      | Some _, Some (z, rest) =>
          match skip_spaces rest with
          | "" => Ok (if negative then - z else z)
          | _ => Raise ValueError
          end
      | _, _ => Raise ValueError
      end
  end.

(** [int(s, 16)]: blanks, an optional sign, an optional [0x] prefix, then
    hexadecimal digits of either case with single underscores allowed
    between them, then blanks; anything else is a [ValueError]. *)
Definition int16 (s : string) : result Z :=
  let '(negative, s1) := strip_sign (skip_spaces s) in
  int16_digits negative (strip_0x s1).

(** [int(v, 16)] on a dynamically typed argument. *)
Definition int16_value (v : pyval) : result Z :=
  match v with
  | VStr s => int16 s
  | _ => Raise TypeError
  end.

Definition decimal (z : Z) : string :=
  DecimalString.NilZero.string_of_int (Z.to_int z).

(** ** Floating point: [/] and [>] of the pre-flight check *)

Definition prec : Z := 53.
Definition emax : Z := 1024.

(** [float(n)] for an integer of at most 53 bits is exact. *)
Definition float_of_int (n : Z) : spec_float :=
  binary_normalize prec emax n 0 false.

(** [a / b] on Python integers: the exact quotient rounded once to the
    nearest binary64 (ties to even), [OverflowError] beyond the range. *)
Definition int_truediv (a b : Z) : result spec_float :=
  let mant z :=
    match z with
    | Zpos p => Some (false, p)
    | Zneg p => Some (true, p)
    | Z0 => None
    end in
  match mant b with
  | None => Raise ZeroDivisionError
  | Some (sb, mb) =>
      match mant a with
      | None => Ok (S754_zero sb)
      | Some (sa, ma) =>
          match SFdiv prec emax (S754_finite sa ma 0) (S754_finite sb mb 0) with
          | S754_infinity _ => Raise OverflowError
          | q => Ok q
          end
      end
  end.

(** [x > n] between a float and an integer literal. *)
Definition float_gt_int (x : spec_float) (n : Z) : bool :=
  match SFcompare x (float_of_int n) with
  | Some Gt => true
  | _ => false
  end.

(** ** The world outside the script *)

(** An HTTP request as [requests.get] and [requests.post] send it.  The
    headers are constant in the source and left out. *)
Inductive Request :=
| GET (url : string)
| POST (url : string) (payload : pyval).

(** What the script reads of a response: [r.status_code], [r.text] and
    [r.json()], which fails on a body that is not JSON. *)
Record Response := {
  status_code : Z;
  text : string;
  json : result pyval
}.

(** - [node] answers the newest request of a history (newest first); it may
      fail at the transport level, as [requests] does on a broken connection;
    - [sent] is the history of requests so far, newest first;
    - [rng] is the operating system's random source, a tape of bytes of
      which the first [drawn] have been consumed;
    - [files] is what [json.load] finds at a path;
    - [slept] sums the seconds spent in [time.sleep];
    - [stdout] holds the printed lines, newest first. *)
Record World := {
  node : list Request -> result Response;
  sent : list Request;
  rng : nat -> Byte.byte;
  drawn : nat;
  files : string -> result pyval;
  slept : Z;
  stdout : list string
}.

(** Effectful code: a state monad over [World] with exceptions.  A raised
    exception keeps the world as it was when it was raised. *)
Definition M (A : Type) : Type := World -> result A * World.

#[global] Instance M_ret : MRet M := fun A a w => (Ok a, w).
#[global] Instance M_bind : MBind M := fun A B f m w =>
  match m w with
  | (Ok a, w') => f a w'
  | (Raise e, w') => (Raise e, w')
  end.

Definition raise {A} (e : exn) : M A := fun w => (Raise e, w).

Definition lift {A} (r : result A) : M A := fun w => (r, w).

(** [requests.get] / [requests.post]: the request is recorded, the node
    answers it. *)
Definition http (q : Request) : M Response := fun w =>
  let h := q :: sent w in
  (node w h,
   {| node := node w; sent := h; rng := rng w; drawn := drawn w;
      files := files w; slept := slept w; stdout := stdout w |}).

(** [secrets.token_hex(n)]: the next [n] bytes of the random source, in
    hexadecimal. *)
Definition token_hex (n : nat) : M string := fun w =>
  (Ok (bytes_hex (rng w <$> seq (drawn w) n)),
   {| node := node w; sent := sent w; rng := rng w; drawn := (drawn w + n)%nat;
      files := files w; slept := slept w; stdout := stdout w |}).

(** [time.sleep(s)] *)
Definition sleep (s : Z) : M unit := fun w =>
  (Ok tt,
   {| node := node w; sent := sent w; rng := rng w; drawn := drawn w;
      files := files w; slept := slept w + s; stdout := stdout w |}).

(** [print(line)] *)
Definition print (line : string) : M unit := fun w =>
  (Ok tt,
   {| node := node w; sent := sent w; rng := rng w; drawn := drawn w;
      files := files w; slept := slept w; stdout := line :: stdout w |}).

(** ** The libraries outside the repository *)

Record Clause := {
  to : pyval;
  value : Z;
  data : string
}.

(** The dict literal of [build_tx], lines 93 to 108. *)
Record TxBody := {
  chainTag : Z;
  blockRef : pyval;
  expiration : Z;
  clauses : list Clause;
  gasPriceCoef : Z;
  gas : Z;
  dependsOn : pyval;
  nonce : Z
}.

(** [thor_devkit] and the two pieces of Python's formatting that the script
    relies on but no claim looks into.
    - [encode_list]: [abi.Coder.encode_list(types, args)];
    - [derive_publicKey], [public_key_to_address], [sign]: [cry];
    - [new_transaction]: the checks of [transaction.Transaction(body)];
    - [get_signing_hash], [encode]: the methods of a transaction, the
      second one after [set_signature];
    - [abi_FUNCTION]: the schema check [abi.FUNCTION(abi_dict)];
    - [function_encode]: [abi.Function(f1).encode(params, to_hex=True)];
    - [repr_other]: how Python formats a float, a list or a dict. *)
Record Externals := {
  encode_list : pyval -> pyval -> result bytes;
  derive_publicKey : bytes -> result bytes;
  public_key_to_address : bytes -> result bytes;
  sign : bytes -> bytes -> result bytes;
  new_transaction : TxBody -> result unit;
  get_signing_hash : TxBody -> result bytes;
  encode : TxBody -> bytes -> result bytes;
  abi_FUNCTION : pyval -> result pyval;
  function_encode : pyval -> pyval -> result string;
  repr_other : pyval -> string
}.

(** ** The script *)

Section Deploy.

Context (ext : Externals).

(** [str(v)], as an f-string or [print] formats a value. *)
Definition py_str (v : pyval) : string :=
  match v with
  | VStr s => s
  | VNone => "None"
  | VBool true => "True"
  | VBool false => "False"
  | VInt z => decimal z
  | _ => repr_other ext v
  end.

(** [v == s] for a string [s]. *)
Definition eq_str (v : pyval) (s : string) : bool :=
  match v with
  | VStr t => String.eqb t s
  | _ => false
  end.

Fixpoint lstrip (c : ascii) (s : string) : string :=
  match s with
  | "" => ""
  | String a s' => if Ascii.eqb a c then lstrip c s' else s
  end.

Fixpoint rstrip (c : ascii) (s : string) : string :=
  match s with
  | "" => ""
  | String a s' =>
      let r := rstrip c s' in
      if Ascii.eqb a c && String.eqb r "" then "" else String a r
  end.

Definition TARGETS (key : string) : result string :=
  if String.eqb key "vvet" then Ok "vvet/build/contracts/VVET9.json"
  else if String.eqb key "factory" then Ok "core/build/contracts/UniswapV2Factory.json"
  else if String.eqb key "router" then Ok "periphery/build/contracts/UniswapV2Router02.json"
  else Raise (KeyError key).

Definition VTHO_CONTRACT : string := "0x0000000000000000000000000000456e65726779".

Definition make_chaintag (hex_str : string) : result Z := int16 hex_str.

Definition read_json_file (path_like : string) : M pyval :=
  fun w => (files w path_like, w).

Definition get_bytecode (contract_meta : pyval) (key : string) : result bytes :=
  h ← getitem contract_meta key;
  match h with
  | VStr s => bytes_fromhex s
  | _ => Raise TypeError
  end.

Definition build_params (types args : pyval) : result bytes :=
  encode_list ext types args.

Definition _build_url (base tail : string) : string :=
  rstrip "/" base ++ "/" ++ lstrip "/" tail.

Definition get_block (network id_or_number : string) : M pyval :=
  let url := _build_url network ("blocks/" ++ id_or_number) in
  r ← http (GET url);
  if negb (status_code r =? 200)%Z
  then raise (Exception ("Cant connect to " ++ url ++ ", error " ++ text r))
  else lift (json r).

Definition best_block (network : string) : M pyval :=
  get_block network "best".

Definition get_account (network account_id block : string) : M pyval :=
  let url := _build_url network ("/accounts/" ++ account_id ++ "?revision=" ++ block) in
  r ← http (GET url);
  if negb (status_code r =? 200)%Z
  then raise (Exception ("Cant connect to " ++ url ++ ", error " ++ text r))
  else lift (json r).

Definition _calc_blockRef (block : pyval) : result pyval :=
  id ← getitem block "id";
  slice_0_18 id.

Definition _calc_nonce : M Z :=
  h ← token_hex 8;
  lift (int16 h).

Definition _calc_address (priv : bytes) : result string :=
  public_key ← derive_publicKey ext priv;
  _address_bytes ← public_key_to_address ext public_key;
  Ok ("0x" ++ bytes_hex _address_bytes).

(** Lines 90 to 108 of [build_tx]: the head block, its reference, the
    nonce and the body. *)
Definition build_tx_body (network : string) (chainTag : Z) (to : pyval)
    (value : Z) (data : string) (gas : Z) (dependsOn : pyval) : M TxBody :=
  block ← best_block network;
  blockRef ← lift (_calc_blockRef block);
  nonce ← _calc_nonce;
  mret {| chainTag := chainTag;
          blockRef := blockRef;
          expiration := 32;
          clauses := [ {| to := to; value := value; data := data |} ];
          gasPriceCoef := 0;
          gas := gas;
          dependsOn := dependsOn;
          nonce := nonce |}.

(** Lines 110 to 116 of [build_tx]: sign and encode. *)
Definition sign_tx (priv : string) (body : TxBody) : result string :=
  new_transaction ext body;;
  priv_key ← bytes_fromhex priv;
  message_hash ← get_signing_hash ext body;
  signature ← sign ext message_hash priv_key;
  encoded ← encode ext body signature;
  Ok ("0x" ++ bytes_hex encoded).

Definition build_tx (priv network : string) (chainTag : Z) (to : pyval)
    (value : Z) (data : string) (gas : Z) (dependsOn : pyval) : M string :=
  body ← build_tx_body network chainTag to value data gas dependsOn;
  lift (sign_tx priv body).

Definition post_tx (network raw : string) : M pyval :=
  let url := _build_url network "transactions" in
  r ← http (POST url (VDict {[ "raw" := VStr raw ]}));
  if negb (status_code r =? 200)%Z
  then raise (Exception ("Creation error? HTTP: " ++ decimal (status_code r) ++ " " ++ text r))
  else
    j ← lift (json r);
    lift (getitem j "id").

Definition tx_receipt (network : string) (tx_id : pyval) : M pyval :=
  let url := _build_url network ("transactions/" ++ py_str tx_id ++ "/receipt") in
  r ← http (GET url);
  if negb (status_code r =? 200)%Z
  then raise (Exception ("Creation error? HTTP: " ++ decimal (status_code r) ++ " " ++ text r))
  else lift (json r).

Definition is_reverted (receipt : pyval) : result pyval :=
  getitem receipt "reverted".

(** The loop of [_find_created_contracts], [a] being the list built so
    far. *)
Fixpoint find_created_loop (xs : list pyval) (a : list pyval) : result (list pyval) :=
  match xs with
  | [] => Ok a
  | x :: xs' =>
      c ← dict_get x "contractAddress";
      if truthy c then find_created_loop xs' (a ++ [c])
      else find_created_loop xs' a
  end.

Definition _find_created_contracts (receipt : pyval) : result (list pyval) :=
  outputs ← getitem receipt "outputs";
  xs ← py_iter outputs;
  find_created_loop xs [].

(** The [for _ in range(rounds)] loop of [wait_for_receipt]: [n] rounds
    are left and [receipt] is the variable's current value. *)
Fixpoint wait_loop (network : string) (tx_id : pyval) (n : nat) (receipt : pyval) : M pyval :=
  match n with
  | O => mret receipt
  | S n' =>
      receipt ← tx_receipt network tx_id;
      if truthy receipt then mret receipt
      else sleep 3;; wait_loop network tx_id n' receipt
  end.

Definition wait_for_receipt (network : string) (tx_id : pyval) (wait_for : Z) : M pyval :=
  let interval := 3 in
  let rounds := wait_for / interval in
  receipt ← wait_loop network tx_id (Z.to_nat rounds) VNone;
  if negb (truthy receipt)
  then raise (Exception ("Cannot get receipt after " ++ decimal wait_for ++ "s, tx dropped?"))
  else mret receipt.

(** Lines 182 to 185 of [deploy]: the bytes of the clause payload. *)
Definition deploy_payload (contract_meta types params : pyval) : result bytes :=
  if negb (truthy types) then get_bytecode contract_meta "bytecode"
  else
    code ← get_bytecode contract_meta "bytecode";
    args ← build_params types params;
    Ok (code ++ args)%list.

(** Lines 181 to 192 of [deploy]: build the payload, send the transaction
    and wait for its receipt. *)
Definition deploy_submit (network : string) (chainTag : Z) (contract_meta types params : pyval)
    (priv : string) (to : pyval) (value : Z) (gas : Z) : M pyval :=
  name ← lift (getitem contract_meta "contractName");
  print ("Deploy contract: <" ++ py_str name ++ ">");;
  data_bytes ← lift (deploy_payload contract_meta types params);
  let data := "0x" ++ bytes_hex data_bytes in
  raw ← build_tx priv network chainTag to value data gas VNone;
  tx_id ← post_tx network raw;
  print ("tx: " ++ py_str tx_id);;
  wait_for_receipt network tx_id 20.

(** Lines 194 to 199 of [deploy]: what becomes of the receipt. *)
Definition deploy_result (receipt : pyval) : M pyval :=
  reverted ← lift (is_reverted receipt);
  if truthy reverted then raise (Exception "reverted")
  else
    addrs ← lift (_find_created_contracts receipt);
    first ← lift (list_first addrs);
    print ("Deployed on: " ++ py_str first);;
    lift (list_first addrs).

Definition deploy (network : string) (chainTag : Z) (contract_meta types params : pyval)
    (priv : string) (to : pyval) (value : Z) (gas : Z) : M pyval :=
  receipt ← deploy_submit network chainTag contract_meta types params priv to value gas;
  deploy_result receipt.

(** Lines 204 to 215 of [call_function]: encode the call, send the
    transaction and wait for its receipt. *)
Definition call_submit (network : string) (chainTag : Z) (abi_dict func_params : pyval)
    (priv : string) (to : pyval) (value : Z) (gas : Z) : M (pyval * pyval) :=
  f1 ← lift (abi_FUNCTION ext abi_dict);
  print ("Call contract: " ++ py_str to);;
  name ← lift (getitem f1 "name");
  print ("function: " ++ py_str name);;
  print ("params: " ++ py_str func_params);;
  data ← lift (function_encode ext f1 func_params);
  raw ← build_tx priv network chainTag to value data gas VNone;
  tx_id ← post_tx network raw;
  print ("tx: " ++ py_str tx_id);;
  receipt ← wait_for_receipt network tx_id 20;
  mret (tx_id, receipt).

(** Lines 217 to 220 of [call_function]. *)
Definition call_result (tx_id receipt : pyval) : M pyval :=
  reverted ← lift (is_reverted receipt);
  if truthy reverted then raise (Exception "reverted")
  else mret tx_id.

Definition call_function (network : string) (chainTag : Z) (abi_dict func_params : pyval)
    (priv : string) (to : pyval) (value : Z) (gas : Z) : M pyval :=
  '(tx_id, receipt) ← call_submit network chainTag abi_dict func_params priv to value gas;
  call_result tx_id receipt.

(** The loop of [find_func_abi]; falling off its end returns [None]. *)
Fixpoint find_func_loop (abis : list pyval) (func_name : string) : result pyval :=
  match abis with
  | [] => Ok VNone
  | each :: abis' =>
      n ← dict_get each "name";
      if eq_str n func_name then Ok each
      else find_func_loop abis' func_name
  end.

Definition find_func_abi (contract_meta : pyval) (func_name : string) : result pyval :=
  abis ← getitem contract_meta "abi";
  xs ← py_iter abis;
  find_func_loop xs func_name.

(** ** The main block *)

(** [sys.argv[i]] *)
Definition argv_at (argv : list string) (i : nat) : result string :=
  match argv !! i with
  | Some a => Ok a
  | None => Raise IndexError
  end.

(** Lines 240 to 248: the balance report and the two assertions. *)
Definition preflight (NETWORK address : string) : M unit :=
  print "Deployer Balance:";;
  acc ← get_account NETWORK address "best";
  vet ← lift (b ← getitem acc "balance"; n ← int16_value b; int_truediv n (10 ^ 18));
  print ("VET: " ++ py_str (VFloat vet));;
  vtho ← lift (e ← getitem acc "energy"; n ← int16_value e; int_truediv n (10 ^ 18));
  print ("VTHO: " ++ py_str (VFloat vtho));;
  hasCode ← lift (getitem acc "hasCode");
  print ("EOA: " ++ py_str (VBool (negb (truthy hasCode))));;
  energy ← lift (e ← getitem acc "energy"; n ← int16_value e; int_truediv n (10 ^ 18));
  (if float_gt_int energy 14000 then mret tt
   else raise (AssertionError "Insufficient VTHO"));;
  hasCode ← lift (getitem acc "hasCode");
  if negb (truthy hasCode) then mret tt
  else raise (AssertionError "Only EOA accouts can deploy this").

(** Lines 250 to 252: deploy VVET. *)
Definition step_vvet (NETWORK : string) (CHAIN_TAG : Z) (private : string) : M pyval :=
  path ← lift (TARGETS "vvet");
  vvet ← read_json_file path;
  deploy NETWORK CHAIN_TAG vvet VNone VNone private VNone 0 3000000.

(** Lines 254 to 257: deploy the factory; the artifact is used again by
    the last step. *)
Definition step_factory (NETWORK : string) (CHAIN_TAG : Z) (private address : string)
    : M (pyval * pyval) :=
  path ← lift (TARGETS "factory");
  factory ← read_json_file path;
  let fee_to_setter := address in
  factory_contract_addr ←
    deploy NETWORK CHAIN_TAG factory (VList [VStr "address"]) (VList [VStr fee_to_setter])
      private VNone 0 3000000;
  mret (factory, factory_contract_addr).

(** Lines 259 to 261: deploy the router. *)
Definition step_router (NETWORK : string) (CHAIN_TAG : Z) (private : string)
    (factory_contract_addr vvet_contract_addr : pyval) : M pyval :=
  path ← lift (TARGETS "router");
  router ← read_json_file path;
  deploy NETWORK CHAIN_TAG router (VList [VStr "address"; VStr "address"])
    (VList [factory_contract_addr; vvet_contract_addr]) private VNone 0 5000000.

(** Lines 263 to 268: create the VVET/VTHO pair. *)
Definition step_pair (NETWORK : string) (CHAIN_TAG : Z) (private : string)
    (factory factory_contract_addr vvet_contract_addr : pyval) : M pyval :=
  createPair_abi ← lift (find_func_abi factory "createPair");
  (if negb (truthy createPair_abi) then raise (Exception "Cannot find createPair abi")
   else mret tt);;
  call_function NETWORK CHAIN_TAG createPair_abi
    (VList [vvet_contract_addr; VStr VTHO_CONTRACT]) private factory_contract_addr 0 2500000.

(** The four steps, lines 250 to 268. *)
Definition steps (NETWORK : string) (CHAIN_TAG : Z) (private address : string) : M unit :=
  vvet_contract_addr ← step_vvet NETWORK CHAIN_TAG private;
  '(factory, factory_contract_addr) ← step_factory NETWORK CHAIN_TAG private address;
  router_contract_addr ← step_router NETWORK CHAIN_TAG private factory_contract_addr vvet_contract_addr;
  step_pair NETWORK CHAIN_TAG private factory factory_contract_addr vvet_contract_addr;;
  mret tt.

(** [if __name__ == "__main__":] with [sys.argv = argv]. *)
Definition main (argv : list string) : M unit :=
  private ← lift (argv_at argv 1);
  address ← lift (priv ← bytes_fromhex private; _calc_address priv);
  NETWORK ← lift (argv_at argv 2);
  CHAIN_TAG ← lift (a ← argv_at argv 3; int16 a);
  preflight NETWORK address;;
  steps NETWORK CHAIN_TAG private address.

End Deploy.

(** ** Observations on a run *)

Definition is_post (q : Request) : bool :=
  match q with
  | POST _ _ => true
  | GET _ => false
  end.

(** The number of transactions submitted so far: every [POST] of the script
    goes to [/transactions]. *)
Definition submissions (w : World) : nat :=
  length (List.filter is_post (sent w)).

(** The failures the script raises on purpose, by a [raise] statement or an
    [assert]; any other exception is a fault of the interpreter or of a
    library. *)
Definition deliberate (e : exn) : bool :=
  match e with
  | Exception _ | AssertionError _ => true
  | _ => false
  end.

(** The [i]-th poll (from 0) of request [q] repeated from world [w] is
    answered with status 200 and the JSON document [v]. *)
Definition answers (w : World) (q : Request) (i : nat) (v : pyval) : Prop :=
  exists resp, node w (repeat q (S i) ++ sent w) = Ok resp
               /\ status_code resp = 200 /\ json resp = Ok v.

(** The world after [polls] more requests [q] and [sleeps] pauses of the
    three seconds of [wait_for_receipt]. *)
Definition after_polls (q : Request) (polls sleeps : nat) (w : World) : World :=
  {| node := node w; sent := repeat q polls ++ sent w; rng := rng w; drawn := drawn w;
     files := files w; slept := slept w + 3 * Z.of_nat sleeps; stdout := stdout w |}.

(** The request [tx_receipt] sends. *)
Definition receipt_request (ext : Externals) (network : string) (tx_id : pyval) : Request :=
  GET (_build_url network ("transactions/" ++ py_str ext tx_id ++ "/receipt")).

(** The integer a sequence of bytes denotes, most significant first. *)
Fixpoint be_value (bs : bytes) : Z :=
  match bs with
  | [] => 0
  | b :: bs' => Z.of_N (Byte.to_N b) * 256 ^ Z.of_nat (length bs') + be_value bs'
  end.

Definition is_dict (v : pyval) : Prop := exists m, v = VDict m.

(** [m] sends no transaction. *)
Definition quiet {A} (m : M A) : Prop :=
  forall w r w', m w = (r, w') -> submissions w' = submissions w.

(** [m] sends at most one transaction. *)
Definition submits_once {A} (m : M A) : Prop :=
  forall w r w', m w = (r, w') -> (submissions w' <= submissions w + 1)%nat.

(** A descriptor of an [abi] list carrying the name [func_name]. *)
Definition named (func_name : string) (each : pyval) : Prop :=
  exists m, each = VDict m /\ m !! "name" = Some (VStr func_name).

(** An output record of a receipt carrying a created address. *)
Definition creates (x : pyval) : Prop :=
  exists m a, x = VDict m /\ m !! "contractAddress" = Some a /\ truthy a = true.

(** [m], when it succeeds, has sent exactly [n] transactions. *)
Definition submits_on_success {A} (n : nat) (m : M A) : Prop :=
  forall w a w', m w = (Ok a, w') -> submissions w' = (submissions w + n)%nat.

(** [m] leaves the random source as it is. *)
Definition keeps_rng {A} (m : M A) : Prop :=
  forall w r w', m w = (r, w') -> rng w' = rng w /\ drawn w' = drawn w.

(** [m], when it succeeds, has taken exactly [n] bytes from the random
    source. *)
Definition draws_on_success {A} (n : nat) (m : M A) : Prop :=
  forall w a w', m w = (Ok a, w') -> rng w' = rng w /\ drawn w' = (drawn w + n)%nat.

(** [s] ends with the character [c]. *)
Fixpoint ends_with (c : ascii) (s : string) : bool :=
  match s with
  | "" => false
  | String a "" => Ascii.eqb a c
  | String _ s' => ends_with c s'
  end.

(** [s] starts with the character [c]. *)
Definition starts_with (c : ascii) (s : string) : bool :=
  match s with
  | "" => false
  | String a _ => Ascii.eqb a c
  end.

(** What [x.get('contractAddress')] gives on an output record. *)
Definition contract_address (x : pyval) : pyval :=
  match dict_get x "contractAddress" with
  | Ok c => c
  | Raise _ => VNone
  end.

(** The created addresses of a list of output records, in their order. *)
Definition created_addresses (outputs : list pyval) : list pyval :=
  List.filter truthy (contract_address <$> outputs).

(** A node that answers every request with the same response. *)
Definition constant_node (resp : Response) : list Request -> result Response :=
  fun _ => Ok resp.

(** ** A scripted node, for concrete runs *)

Module Scenario.

Definition ext : Externals := {|
  encode_list := fun _ _ => Ok [Byte.xaa];
  derive_publicKey := fun priv => Ok priv;
  public_key_to_address := fun pub => Ok pub;
  sign := fun _ _ => Ok [Byte.x01];
  new_transaction := fun _ => Ok tt;
  get_signing_hash := fun _ => Ok [Byte.x02];
  encode := fun _ signature => Ok signature;
  abi_FUNCTION := fun d => Ok d;
  function_encode := fun _ _ => Ok "0xc9c65396";
  repr_other := fun _ => "..."
|}.

Definition ok_json (v : pyval) : result Response :=
  Ok {| status_code := 200; text := ""; json := Ok v |}.

Definition block : pyval :=
  VDict {[ "id" := VStr "0x00000a1b2c3d4e5f60718293a4b5c6d7e8f9000102030405060708090a0b0c0d0e" ]}.

Definition receipt_url : string := "http://node/transactions/0x7a/receipt".

Definition polls_so_far (past : list Request) : nat :=
  length (List.filter (fun q => match q with
                                | GET u => String.eqb u receipt_url
                                | POST _ _ => false
                                end) past).

(** The node answers [acc] for the account and the [i]-th receipt poll of
    the run with the [i]-th document of [receipts], [null] beyond. *)
Definition scripted (acc : pyval) (receipts : list pyval) (h : list Request) : result Response :=
  match h with
  | [] => Raise LibraryError
  | POST _ _ :: _ => ok_json (VDict {[ "id" := VStr "0x7a" ]})
  | GET u :: past =>
      if String.eqb u "http://node/blocks/best" then ok_json block
      else if String.eqb u receipt_url then ok_json (nth (polls_so_far past) receipts VNone)
      else ok_json acc
  end.

Definition artifact : pyval :=
  VDict {[ "contractName" := VStr "C";
           "bytecode" := VStr "6080";
           "abi" := VList [ VDict {[ "type" := VStr "constructor" ]};
                            VDict {[ "name" := VStr "createPair"; "type" := VStr "function" ]};
                            VDict {[ "name" := VStr "createPair"; "type" := VStr "event" ]} ] ]}.

Definition world (acc : pyval) (receipts : list pyval) : World := {|
  node := scripted acc receipts;
  sent := [];
  rng := fun i => default Byte.x00 (Byte.of_N (N.of_nat (17 * i + 3)));
  drawn := 0;
  files := fun _ => Ok artifact;
  slept := 0;
  stdout := []
|}.

Definition account (energy : string) (hasCode : bool) : pyval :=
  VDict {[ "balance" := VStr "0x0"; "energy" := VStr energy; "hasCode" := VBool hasCode ]}.

Definition created_fields (a : string) : gmap string pyval :=
  {[ "reverted" := VBool false;
     "outputs" := VList [ VDict {[ "contractAddress" := VNone ]};
                          VDict {[ "contractAddress" := VStr a ]};
                          VDict {[ "contractAddress" := VStr "0xffff" ]} ] ]}.

Definition created (a : string) : pyval := VDict (created_fields a).

Definition reverted_fields : gmap string pyval :=
  {[ "reverted" := VBool true;
     "outputs" := VList [ VDict {[ "contractAddress" := VStr "0xdead" ]} ] ]}.

Definition reverted_receipt : pyval := VDict reverted_fields.

Definition empty_fields : gmap string pyval :=
  {[ "reverted" := VBool false;
     "outputs" := VList [ VDict {[ "contractAddress" := VNone ]} ] ]}.

Definition empty_receipt : pyval := VDict empty_fields.

Definition argv : list string := ["deploy.py"; "00"; "http://node/"; "0xa4"].

(** A node that answers everything with the status [code] and the text
    [body], which is not JSON. *)
Definition out_of_service (code : Z) (body : string) : World := {|
  node := constant_node {| status_code := code; text := body; json := Raise ValueError |};
  sent := [];
  rng := fun _ => Byte.x00;
  drawn := 0;
  files := fun _ => Raise OSError;
  slept := 0;
  stdout := []
|}.

End Scenario.

(** * Properties *)

(** ** Stepping through the two monads *)

Lemma result_bind_ok {A B} (a : A) (k : A -> result B) : (Ok a ≫= k) = k a.
Proof. reflexivity. Qed.

Lemma result_bind_raise {A B} (e : exn) (k : A -> result B) : (Raise e ≫= k) = Raise e.
Proof. reflexivity. Qed.

Lemma bind_ok {A B} (m : M A) (k : A -> M B) w a w' :
  m w = (Ok a, w') -> (m ≫= k) w = k a w'.
Proof. intros H. unfold mbind, M_bind. now rewrite H. Qed.

Lemma bind_raise {A B} (m : M A) (k : A -> M B) w e w' :
  m w = (Raise e, w') -> (m ≫= k) w = (Raise e, w').
Proof. intros H. unfold mbind, M_bind. now rewrite H. Qed.

(** A run of [m ≫= k] either fails in [m] or goes on with [k]. *)
Lemma bind_inv {A B} (m : M A) (k : A -> M B) w r w' :
  (m ≫= k) w = (r, w') ->
  (exists e, m w = (Raise e, w') /\ r = Raise e)
  \/ (exists a w1, m w = (Ok a, w1) /\ k a w1 = (r, w')).
Proof.
  unfold mbind, M_bind. destruct (m w) as [[a | e] w1]; intros H.
  - right. eauto.
  - left. exists e. now inversion H.
Qed.

(** ** The ABI lookup *)

Lemma eq_str_true v s : eq_str v s = true <-> v = VStr s.
Proof.
  destruct v; simpl; try (split; [discriminate | intros H; discriminate H]).
  rewrite String.eqb_eq. split; [now intros -> | now intros [= ->]].
Qed.

Lemma name_matches m func_name :
  eq_str (default VNone (m !! "name")) func_name = true <-> named func_name (VDict m).
Proof.
  rewrite eq_str_true. unfold named. split.
  - intros H. exists m. split; [reflexivity |].
    destruct (m !! "name") as [v |]; simpl in H; [now subst | discriminate].
  - intros (m' & [= <-] & ->). reflexivity.
Qed.

Lemma find_func_loop_skip pre rest func_name :
  Forall is_dict pre -> Forall (fun x => ~ named func_name x) pre ->
  find_func_loop (pre ++ rest)%list func_name = find_func_loop rest func_name.
Proof.
  induction 1 as [| x pre [m ->] _ IH]; intros Hn; [reflexivity |].
  inversion Hn as [| ? ? Hx Hpre]; subst. simpl.
  destruct (eq_str (default VNone (m !! "name")) func_name) eqn:E.
  - apply name_matches in E. contradiction.
  - now apply IH.
Qed.

(** C8: the lookup returns the first descriptor of the [abi] list that
    carries the requested name, also when later ones carry it too, and
    [None] when none does. *)
Theorem find_func_abi_first_match (m : gmap string pyval) (abis : list pyval) (func_name : string) :
  m !! "abi" = Some (VList abis) ->
  Forall is_dict abis ->
  (forall pre each post,
      abis = (pre ++ each :: post)%list ->
      named func_name each ->
      Forall (fun x => ~ named func_name x) pre ->
      find_func_abi (VDict m) func_name = Ok each)
  /\ (Forall (fun x => ~ named func_name x) abis ->
      find_func_abi (VDict m) func_name = Ok VNone).
Proof.
  intros Habi Hd. unfold find_func_abi. simpl. rewrite Habi. simpl. split.
  - intros pre each post -> Hnamed Hpre.
    apply Forall_app in Hd as [Hd _].
    rewrite find_func_loop_skip by assumption.
    destruct Hnamed as (d & -> & Hname). simpl. rewrite Hname. simpl.
    now rewrite String.eqb_refl.
  - intros Hnone.
    rewrite <- (app_nil_r abis), find_func_loop_skip by assumption.
    reflexivity.
Qed.

Lemma find_func_abi_first_match_witness :
  find_func_abi Scenario.artifact "createPair"
  = Ok (VDict {[ "name" := VStr "createPair"; "type" := VStr "function" ]}).
Proof.
  refine (proj1 (find_func_abi_first_match _
                   [ VDict {[ "type" := VStr "constructor" ]};
                     VDict {[ "name" := VStr "createPair"; "type" := VStr "function" ]};
                     VDict {[ "name" := VStr "createPair"; "type" := VStr "event" ]} ]
                   "createPair" _ _)
                [ VDict {[ "type" := VStr "constructor" ]} ] _
                [ VDict {[ "name" := VStr "createPair"; "type" := VStr "event" ]} ]
                eq_refl _ _).
  - vm_compute. reflexivity.
  - repeat constructor; eexists; reflexivity.
  - eexists. split; [reflexivity | vm_compute; reflexivity].
  - repeat constructor. intros (d & [= <-] & H). vm_compute in H. discriminate H.
Defined.

(** ** The block reference *)

Lemma string_app_cons c (a b : string) : String c a ++ b = String c (a ++ b).
Proof. reflexivity. Qed.

Lemma string_app_nil (b : string) : "" ++ b = b.
Proof. reflexivity. Qed.

Lemma substring_0_prefix n s : exists rest, s = substring 0 n s ++ rest.
Proof.
  revert s. induction n as [| n IH]; intros s.
  - exists s. now destruct s.
  - destruct s as [| c s]; [now exists "" |].
    destruct (IH s) as [rest E]. exists rest.
    simpl substring. rewrite string_app_cons. now rewrite <- E.
Qed.

Lemma substring_0_length n s :
  (n <= String.length s)%nat -> String.length (substring 0 n s) = n.
Proof.
  revert s. induction n as [| n IH]; intros s H.
  - now destruct s.
  - destruct s as [| c s]; simpl in *; [lia |]. rewrite IH; lia.
Qed.

Lemma substring_0_app a b : substring 0 (String.length a) (a ++ b) = a.
Proof.
  induction a as [| c a IH].
  - rewrite string_app_nil. now destruct b.
  - rewrite string_app_cons. simpl. now rewrite IH.
Qed.

Lemma string_app_assoc (a b c : string) : (a ++ b) ++ c = a ++ (b ++ c).
Proof.
  induction a as [| x a IH]; [reflexivity |].
  now rewrite !string_app_cons, IH.
Qed.

Lemma string_app_length (a b : string) :
  String.length (a ++ b) = (String.length a + String.length b)%nat.
Proof.
  induction a as [| x a IH]; [reflexivity |].
  rewrite string_app_cons. simpl. now rewrite IH.
Qed.

Lemma bytes_hex_app (a b : bytes) : bytes_hex (a ++ b)%list = bytes_hex a ++ bytes_hex b.
Proof.
  induction a as [| x a IH]; [reflexivity |].
  simpl. now rewrite IH, string_app_assoc.
Qed.

Lemma bytes_hex_length (bs : bytes) : String.length (bytes_hex bs) = (2 * length bs)%nat.
Proof.
  induction bs as [| b bs IH]; [reflexivity |].
  simpl. rewrite string_app_length, IH. simpl. lia.
Qed.

(** C6: the block reference is characters 0 to 17 of the block's id: a
    prefix of it, 18 characters long on an id that has as many, which on a
    [0x] id are the prefix and the first 8 bytes; and it depends on nothing
    but the id. *)
Theorem calc_blockRef_prefix (block : gmap string pyval) (id : string) :
  block !! "id" = Some (VStr id) ->
  _calc_blockRef (VDict block) = Ok (VStr (substring 0 18 id))
  /\ (exists rest, id = substring 0 18 id ++ rest)
  /\ ((18 <= String.length id)%nat -> String.length (substring 0 18 id) = 18%nat)
  /\ (forall bs : bytes, id = "0x" ++ bytes_hex bs -> (8 <= length bs)%nat ->
        substring 0 18 id = "0x" ++ bytes_hex (take 8 bs))
  /\ (forall block' : gmap string pyval, block' !! "id" = Some (VStr id) ->
        _calc_blockRef (VDict block') = _calc_blockRef (VDict block)).
Proof.
  intros Hid. unfold _calc_blockRef. simpl. rewrite Hid. simpl.
  split; [reflexivity |]. split; [apply substring_0_prefix |].
  split; [apply substring_0_length |]. split.
  - intros bs -> Hlen.
    rewrite <- (take_drop 8 bs) at 1.
    rewrite bytes_hex_app.
    change ("0x" ++ bytes_hex (take 8 bs) ++ bytes_hex (drop 8 bs))
      with (("0x" ++ bytes_hex (take 8 bs)) ++ bytes_hex (drop 8 bs)).
    replace 18%nat with (String.length ("0x" ++ bytes_hex (take 8 bs))).
    + apply substring_0_app.
    + rewrite string_app_length, bytes_hex_length, length_take.
      change (String.length "0x") with 2%nat. lia.
  - intros block' Hid'. now rewrite Hid'.
Qed.

Lemma calc_blockRef_prefix_witness :
  _calc_blockRef Scenario.block = Ok (VStr "0x00000a1b2c3d4e5f").
Proof.
  refine (proj1 (calc_blockRef_prefix _
            "0x00000a1b2c3d4e5f60718293a4b5c6d7e8f9000102030405060708090a0b0c0d0e" _)).
  vm_compute. reflexivity.
Defined.

(** ** Waiting for a receipt *)

Lemma repeat_snoc_cons {A} (x : A) n l : (repeat x n ++ x :: l = repeat x (S n) ++ l)%list.
Proof. induction n as [| n IH]; simpl; [reflexivity | now rewrite IH]. Qed.

(** After one unanswered poll and its pause, later polls are the next ones
    of the original world. *)
Lemma answers_shift w q i v : answers (after_polls q 1 1 w) q i v <-> answers w q (S i) v.
Proof.
  unfold answers, after_polls. cbn [node sent].
  change (repeat q 1 ++ sent w)%list with (q :: sent w).
  now rewrite repeat_snoc_cons.
Qed.

Lemma after_polls_shift q n s w :
  after_polls q n s (after_polls q 1 1 w) = after_polls q (S n) (S s) w.
Proof.
  unfold after_polls. cbn [node sent rng drawn files slept stdout].
  change (repeat q 1 ++ sent w)%list with (q :: sent w).
  rewrite repeat_snoc_cons. f_equal. lia.
Qed.

(** One poll that the node answers. *)
Lemma tx_receipt_answered ext network tx_id w v :
  answers w (receipt_request ext network tx_id) 0 v ->
  tx_receipt ext network tx_id w
  = (Ok v, after_polls (receipt_request ext network tx_id) 1 0 w).
Proof.
  intros (resp & Hnode & Hstatus & Hjson).
  unfold tx_receipt, receipt_request in *. simpl in Hnode.
  unfold mbind, M_bind, http. rewrite Hnode, Hstatus. simpl.
  unfold lift. rewrite Hjson. unfold after_polls. simpl.
  do 2 f_equal. lia.
Qed.

(** The loop finds the receipt of poll [k] when the polls before it found
    nothing. *)
Lemma wait_loop_found ext network tx_id n : forall k w r0 r,
  (k < n)%nat ->
  (forall i, (i < k)%nat ->
     exists v, answers w (receipt_request ext network tx_id) i v /\ truthy v = false) ->
  answers w (receipt_request ext network tx_id) k r ->
  truthy r = true ->
  wait_loop ext network tx_id n r0 w
  = (Ok r, after_polls (receipt_request ext network tx_id) (S k) k w).
Proof.
  induction n as [| n IH]; intros k w r0 r Hk Hbefore Hat Hr; [lia |].
  cbn [wait_loop].
  destruct k as [| k].
  - rewrite (bind_ok _ _ _ _ _ (tx_receipt_answered _ _ _ _ _ Hat)).
    now rewrite Hr.
  - destruct (Hbefore 0%nat ltac:(lia)) as (v & Hv & Hfalse).
    rewrite (bind_ok _ _ _ _ _ (tx_receipt_answered _ _ _ _ _ Hv)).
    rewrite Hfalse.
    set (q := receipt_request ext network tx_id) in *.
    assert (Hsleep : sleep 3 (after_polls q 1 0 w) = (Ok tt, after_polls q 1 1 w)).
    { unfold sleep, after_polls. simpl. do 2 f_equal. lia. }
    rewrite (bind_ok _ _ _ _ _ Hsleep).
    rewrite (IH k (after_polls q 1 1 w) v r).
    + now rewrite after_polls_shift.
    + lia.
    + intros i Hi. destruct (Hbefore (S i) ltac:(lia)) as (v' & Hv' & Hf').
      exists v'. split; [now apply answers_shift | exact Hf'].
    + now apply answers_shift.
    + exact Hr.
Qed.

(** The loop ends on a falsy value after [n] polls that found nothing. *)
Lemma wait_loop_nothing ext network tx_id n : forall w r0,
  truthy r0 = false ->
  (forall i, (i < n)%nat ->
     exists v, answers w (receipt_request ext network tx_id) i v /\ truthy v = false) ->
  exists r, truthy r = false
    /\ wait_loop ext network tx_id n r0 w
       = (Ok r, after_polls (receipt_request ext network tx_id) n n w).
Proof.
  induction n as [| n IH]; intros w r0 Hr0 Hall.
  - exists r0. split; [exact Hr0 |]. cbn [wait_loop]. unfold mret, M_ret, after_polls.
    destruct w. simpl. do 2 f_equal. lia.
  - cbn [wait_loop].
    destruct (Hall 0%nat ltac:(lia)) as (v & Hv & Hfalse).
    rewrite (bind_ok _ _ _ _ _ (tx_receipt_answered _ _ _ _ _ Hv)).
    rewrite Hfalse.
    set (q := receipt_request ext network tx_id) in *.
    assert (Hsleep : sleep 3 (after_polls q 1 0 w) = (Ok tt, after_polls q 1 1 w)).
    { unfold sleep, after_polls. simpl. do 2 f_equal. lia. }
    rewrite (bind_ok _ _ _ _ _ Hsleep).
    destruct (IH (after_polls q 1 1 w) v Hfalse) as (r & Hr & Hrun).
    + intros i Hi. destruct (Hall (S i) ltac:(lia)) as (v' & Hv' & Hf').
      exists v'. split; [now apply answers_shift | exact Hf'].
    + exists r. split; [exact Hr |]. now rewrite Hrun, after_polls_shift.
Qed.

(** For any window: a receipt found within the rounds is returned. *)
Lemma wait_for_receipt_found ext network tx_id wait_for w k r :
  (k < Z.to_nat (wait_for / 3))%nat ->
  (forall i, (i < k)%nat ->
     exists v, answers w (receipt_request ext network tx_id) i v /\ truthy v = false) ->
  answers w (receipt_request ext network tx_id) k r ->
  truthy r = true ->
  wait_for_receipt ext network tx_id wait_for w
  = (Ok r, after_polls (receipt_request ext network tx_id) (S k) k w).
Proof.
  intros Hk Hbefore Hat Hr. unfold wait_for_receipt.
  rewrite (bind_ok _ _ _ _ _ (wait_loop_found _ _ _ _ _ _ _ _ Hk Hbefore Hat Hr)).
  now rewrite Hr.
Qed.

(** For any window: when no round finds a receipt the call fails, after
    as many polls as there are rounds. *)
Lemma wait_for_receipt_timeout ext network tx_id wait_for w :
  (forall i, (i < Z.to_nat (wait_for / 3))%nat ->
     exists v, answers w (receipt_request ext network tx_id) i v /\ truthy v = false) ->
  wait_for_receipt ext network tx_id wait_for w
  = (Raise (Exception ("Cannot get receipt after " ++ decimal wait_for ++ "s, tx dropped?")),
     after_polls (receipt_request ext network tx_id)
       (Z.to_nat (wait_for / 3)) (Z.to_nat (wait_for / 3)) w).
Proof.
  intros Hall. unfold wait_for_receipt.
  destruct (wait_loop_nothing ext network tx_id _ w VNone eq_refl Hall) as (r & Hr & Hrun).
  rewrite (bind_ok _ _ _ _ _ Hrun). now rewrite Hr.
Qed.

(** C3: with the default window of 20 seconds, polled every 3 seconds,
    [wait_for_receipt] returns the first receipt a poll finds (one of the
    six polls, the earlier ones having found nothing: [null] or an empty
    document); when none of the six polls finds one it raises its timeout
    exception instead of returning; six polls and 18 seconds of pauses are
    the window within one interval. *)
Theorem wait_for_receipt_default (ext : Externals) (network : string) (tx_id : pyval) (w : World) :
  (forall (k : nat) (r : pyval),
      (k < 6)%nat ->
      (forall i, (i < k)%nat ->
         exists v, answers w (receipt_request ext network tx_id) i v /\ truthy v = false) ->
      answers w (receipt_request ext network tx_id) k r ->
      truthy r = true ->
      wait_for_receipt ext network tx_id 20 w
      = (Ok r, after_polls (receipt_request ext network tx_id) (S k) k w))
  /\ ((forall i, (i < 6)%nat ->
         exists v, answers w (receipt_request ext network tx_id) i v /\ truthy v = false) ->
      wait_for_receipt ext network tx_id 20 w
      = (Raise (Exception "Cannot get receipt after 20s, tx dropped?"),
         after_polls (receipt_request ext network tx_id) 6 6 w))
  /\ (20 - 3 < 3 * Z.of_nat 6 <= 20).
Proof.
  split; [| split; [| lia]].
  - intros k r Hk. now apply wait_for_receipt_found.
  - intros Hall. now apply (wait_for_receipt_timeout ext network tx_id 20 w).
Qed.

(** C9: a window shorter than the interval leaves no round: the call
    raises its timeout exception in an unchanged world, without a single
    request, whatever the node would have answered. *)
Theorem wait_for_receipt_short_window (ext : Externals) (network : string) (tx_id : pyval)
    (wait_for : Z) (w : World) :
  0 <= wait_for < 3 ->
  wait_for_receipt ext network tx_id wait_for w
  = (Raise (Exception ("Cannot get receipt after " ++ decimal wait_for ++ "s, tx dropped?")), w).
Proof.
  intros H. unfold wait_for_receipt.
  rewrite Z.div_small by exact H. reflexivity.
Qed.

Lemma wait_for_receipt_default_witness :
  wait_for_receipt Scenario.ext "http://node" (VStr "0x7a") 20
    (Scenario.world VNone [VNone; VNone; Scenario.created "0xA"])
  = (Ok (Scenario.created "0xA"),
     after_polls (GET Scenario.receipt_url) 3 2
       (Scenario.world VNone [VNone; VNone; Scenario.created "0xA"])).
Proof.
  apply (proj1 (wait_for_receipt_default Scenario.ext "http://node" (VStr "0x7a")
                  (Scenario.world VNone [VNone; VNone; Scenario.created "0xA"])) 2%nat).
  - lia.
  - intros i Hi. exists VNone. split; [| reflexivity].
    exists {| status_code := 200; text := ""; json := Ok VNone |}.
    destruct i as [| [| i]]; [| | lia]; (split; [vm_compute; reflexivity | split; reflexivity]).
  - exists {| status_code := 200; text := ""; json := Ok (Scenario.created "0xA") |}.
    split; [vm_compute; reflexivity | split; reflexivity].
  - reflexivity.
Defined.

Lemma wait_for_receipt_short_window_witness :
  wait_for_receipt Scenario.ext "http://node" (VStr "0x7a") 2
    (Scenario.world VNone [Scenario.created "0xA"])
  = (Raise (Exception "Cannot get receipt after 2s, tx dropped?"),
     Scenario.world VNone [Scenario.created "0xA"])
  /\ fst (tx_receipt Scenario.ext "http://node" (VStr "0x7a")
            (Scenario.world VNone [Scenario.created "0xA"]))
     = Ok (Scenario.created "0xA").
Proof.
  split.
  - apply (wait_for_receipt_short_window Scenario.ext "http://node" (VStr "0x7a") 2). lia.
  - vm_compute. reflexivity.
Defined.

(** ** The transaction body *)

Lemma hex_of_byte_value (b : Byte.byte) :
  exists h l,
    hex_of_byte b = String h (String l "")
    /\ hex_value h = Some (Z.of_N (Byte.to_N b) / 16)
    /\ hex_value l = Some (Z.of_N (Byte.to_N b) mod 16)
    /\ Ascii.eqb l "x" = false /\ Ascii.eqb l "X" = false.
Proof.
  exists (hex_digit (Byte.to_N b / 16)), (hex_digit (Byte.to_N b mod 16)).
  split; [reflexivity |].
  destruct b; vm_compute; auto.
Qed.

(** A hexadecimal digit is no underscore, blank or sign. *)
Lemma hex_value_plain (c : ascii) (v : Z) :
  hex_value c = Some v ->
  Ascii.eqb c "_" = false /\ int_space c = false
  /\ Ascii.eqb c "-" = false /\ Ascii.eqb c "+" = false.
Proof.
  destruct c as [[] [] [] [] [] [] [] []]; vm_compute; intros H;
    solve [discriminate H | repeat split].
Qed.

Lemma hex_scan_bytes (bs : bytes) : forall acc rest,
  hex_scan (bytes_hex bs ++ rest) false acc
  = hex_scan rest false (acc * 256 ^ Z.of_nat (length bs) + be_value bs).
Proof.
  induction bs as [| b bs IH]; intros acc rest.
  - rewrite string_app_nil. simpl. f_equal. lia.
  - cbn [bytes_hex be_value length].
    destruct (hex_of_byte_value b) as (h & l & -> & Hh & Hl & _).
    rewrite string_app_assoc, !string_app_cons, string_app_nil.
    destruct (hex_value_plain _ _ Hh) as (Uh & _).
    destruct (hex_value_plain _ _ Hl) as (Ul & _).
    cbn [hex_scan]. rewrite Uh, Hh, Ul, Hl, IH. f_equal.
    rewrite Nat2Z.inj_succ, Z.pow_succ_r by lia.
    pose proof (Z.div_mod (Z.of_N (Byte.to_N b)) 16 ltac:(lia)) as E.
    set (B := Z.of_N (Byte.to_N b)) in *.
    set (P := 256 ^ Z.of_nat (length bs)).
    rewrite E at 3. ring.
Qed.

(** The digits of some bytes read back as the integer the bytes denote. *)
Lemma int16_digits_bytes_hex (bs : bytes) :
  bs <> [] -> int16_digits false (bytes_hex bs) = Ok (be_value bs).
Proof.
  destruct bs as [| b bs]; [congruence |]. intros _.
  pose proof (hex_scan_bytes (b :: bs) 0 "") as H.
  assert (Happ : forall s : string, s ++ "" = s).
  { induction s as [| c s IHs]; [reflexivity |]. now rewrite string_app_cons, IHs. }
  rewrite Happ, Z.mul_0_l, Z.add_0_l in H.
  assert (E : exists h l v, bytes_hex (b :: bs) = String h (String l (bytes_hex bs))
                            /\ hex_value h = Some v).
  { cbn [bytes_hex]. destruct (hex_of_byte_value b) as (h & l & -> & Hh & _).
    exists h, l. eexists. rewrite !string_app_cons, string_app_nil. eauto. }
  destruct E as (h & l & v & E & Hh). rewrite E in H |- *.
  unfold int16_digits. rewrite Hh, H. reflexivity.
Qed.

(** [int(b.hex(), 16)] reads back the integer the bytes denote. *)
Lemma int16_bytes_hex (bs : bytes) : bs <> [] -> int16 (bytes_hex bs) = Ok (be_value bs).
Proof.
  intros Hne. rewrite <- (int16_digits_bytes_hex bs Hne).
  destruct bs as [| b bs]; [congruence |].
  cbn [bytes_hex]. destruct (hex_of_byte_value b) as (h & l & -> & Hh & _ & Hx & HX).
  rewrite !string_app_cons, string_app_nil.
  destruct (hex_value_plain _ _ Hh) as (_ & Sh & Mh & Ph).
  unfold int16. cbn [skip_spaces]. rewrite Sh. cbn [strip_sign]. rewrite Mh, Ph.
  unfold strip_0x. now rewrite Hx, HX, andb_false_r.
Qed.

Lemma be_value_range (bs : bytes) : 0 <= be_value bs < 256 ^ Z.of_nat (length bs).
Proof.
  induction bs as [| b bs IH]; [simpl; lia |].
  cbn [be_value length]. rewrite Nat2Z.inj_succ, Z.pow_succ_r by lia.
  pose proof (Byte.to_N_bounded b).
  set (P := 256 ^ Z.of_nat (length bs)) in *. nia.
Qed.

Lemma bind_inv_ok {A B} (m : M A) (k : A -> M B) w b w' :
  (m ≫= k) w = (Ok b, w') ->
  exists a w1, m w = (Ok a, w1) /\ k a w1 = (Ok b, w').
Proof.
  intros H. apply bind_inv in H as [(e & _ & [=]) | H]. exact H.
Qed.

(** A [GET] does not touch the random source. *)
Lemma get_block_rng network id_or_number w r w' :
  get_block network id_or_number w = (r, w') -> rng w' = rng w /\ drawn w' = drawn w.
Proof.
  unfold get_block, mbind, M_bind, http. simpl.
  destruct (node w _) as [resp | e]; [| now intros [= _ <-]].
  destruct (negb _); [now intros [= _ <-] |].
  unfold lift. now intros [= _ <-].
Qed.

Lemma calc_nonce_run w :
  _calc_nonce w
  = (Ok (be_value (rng w <$> seq (drawn w) 8)),
     {| node := node w; sent := sent w; rng := rng w; drawn := (drawn w + 8)%nat;
        files := files w; slept := slept w; stdout := stdout w |}).
Proof.
  unfold _calc_nonce, mbind, M_bind, token_hex, lift.
  now rewrite int16_bytes_hex by discriminate.
Qed.

(** C7: the body that [build_tx] signs and encodes expires after 32
    blocks, has fee coefficient 0, the caller's [dependsOn] and one clause
    made of the caller's [to], [value] and [data]; its nonce is the integer
    read from 8 bytes newly taken from the random source, hence below 2^64,
    and the source has moved on by these 8 bytes for the next call. *)
Theorem build_tx_body_fields (ext : Externals) (priv network : string) (chainTag0 : Z)
    (to0 : pyval) (value0 : Z) (data0 : string) (gas0 : Z) (dependsOn0 : pyval)
    (w w' : World) (raw : string) :
  build_tx ext priv network chainTag0 to0 value0 data0 gas0 dependsOn0 w = (Ok raw, w') ->
  exists body,
    build_tx_body network chainTag0 to0 value0 data0 gas0 dependsOn0 w = (Ok body, w')
    /\ sign_tx ext priv body = Ok raw
    /\ expiration body = 32
    /\ gasPriceCoef body = 0
    /\ dependsOn body = dependsOn0
    /\ clauses body = [ {| to := to0; value := value0; data := data0 |} ]
    /\ nonce body = be_value (rng w <$> seq (drawn w) 8)
    /\ 0 <= nonce body < 2 ^ 64
    /\ rng w' = rng w /\ drawn w' = (drawn w + 8)%nat.
Proof.
  intros H. unfold build_tx in H.
  apply bind_inv_ok in H as (body & w1 & Hbody & Hsign).
  unfold lift in Hsign. injection Hsign as Hsign <-.
  exists body. split; [exact Hbody |]. split; [exact Hsign |].
  unfold build_tx_body in Hbody.
  apply bind_inv_ok in Hbody as (block & w2 & Hblock & Hbody).
  apply get_block_rng in Hblock as [Hrng Hdrawn].
  apply bind_inv_ok in Hbody as (ref & w3 & Href & Hbody).
  unfold lift in Href. injection Href as Href <-.
  apply bind_inv_ok in Hbody as (n & w4 & Hnonce & Hbody).
  rewrite calc_nonce_run, <- Hrng, <- Hdrawn in *.
  remember (be_value (rng w2 <$> seq (drawn w2) 8)) as v eqn:Ev.
  injection Hnonce as <- <-.
  unfold mret, M_ret in Hbody. injection Hbody as <- <-.
  cbn [expiration gasPriceCoef dependsOn clauses nonce rng drawn].
  do 5 (split; [reflexivity |]).
  split; [| split; reflexivity].
  pose proof (be_value_range (rng w2 <$> seq (drawn w2) 8)) as R.
  rewrite length_fmap, length_seq in R. now rewrite Ev.
Qed.

Lemma build_tx_body_fields_witness :
  exists body,
    build_tx_body "http://node" 164 VNone 0 "0x6080" 3000000 VNone (Scenario.world VNone [])
    = (Ok body,
       snd (build_tx Scenario.ext "00" "http://node" 164 VNone 0 "0x6080" 3000000 VNone
              (Scenario.world VNone [])))
    /\ nonce body = 0x031425364758697a.
Proof.
  destruct (build_tx_body_fields Scenario.ext "00" "http://node" 164 VNone 0 "0x6080" 3000000
              VNone (Scenario.world VNone [])
              (snd (build_tx Scenario.ext "00" "http://node" 164 VNone 0 "0x6080" 3000000 VNone
                      (Scenario.world VNone [])))
              "0x01" ltac:(vm_compute; reflexivity))
    as (body & Hbody & _ & _ & _ & _ & _ & Hnonce & _).
  exists body. split; [exact Hbody |]. rewrite Hnonce. vm_compute. reflexivity.
Defined.

(** ** What becomes of a receipt *)

Lemma find_created_loop_skip (pre rest a : list pyval) :
  Forall is_dict pre -> Forall (fun x => ~ creates x) pre ->
  find_created_loop (pre ++ rest)%list a = find_created_loop rest a.
Proof.
  induction 1 as [| x pre [m ->] _ IH]; intros Hn; [reflexivity |].
  inversion Hn as [| ? ? Hx Hpre]; subst. simpl.
  destruct (truthy (default VNone (m !! "contractAddress"))) eqn:E.
  - exfalso. apply Hx. exists m. destruct (m !! "contractAddress") as [c |] eqn:L.
    + exists c. auto.
    + discriminate E.
  - now apply IH.
Qed.

Lemma find_created_loop_extends (xs : list pyval) : forall a,
  Forall is_dict xs -> exists l, find_created_loop xs a = Ok (a ++ l)%list.
Proof.
  induction xs as [| x xs IH]; intros a Hd.
  - exists []. simpl. now rewrite app_nil_r.
  - inversion Hd as [| ? ? [m ->] Hxs]; subst. simpl.
    destruct (truthy _).
    + destruct (IH (a ++ [default VNone (m !! "contractAddress")])%list Hxs) as [l ->].
      eexists. now rewrite <- app_assoc.
    + now apply IH.
Qed.

Lemma find_created_loop_raises (xs : list pyval) : forall a e,
  find_created_loop xs a = Raise e -> e = AttributeError.
Proof.
  induction xs as [| x xs IH]; intros a e; simpl; [discriminate |].
  destruct x; simpl; try (now intros [= <-]).
  destruct (truthy _); apply IH.
Qed.

(** Reading the created addresses fails only by a fault of the
    interpreter. *)
Lemma find_created_contracts_raises (receipt : pyval) e :
  _find_created_contracts receipt = Raise e -> deliberate e = false.
Proof.
  unfold _find_created_contracts.
  destruct (getitem receipt "outputs") as [outputs | e1] eqn:G; simpl.
  - destruct (py_iter outputs) as [xs | e2] eqn:I; simpl.
    + intros H. apply find_created_loop_raises in H. now subst.
    + intros [= <-]. destruct outputs; simpl in I; now inversion I.
  - intros [= <-]. destruct receipt; simpl in G; try (now inversion G).
    destruct (m !! "outputs"); now inversion G.
Qed.

(** C4: a receipt whose [reverted] flag is true makes [deploy] and
    [call_function] raise [Exception('reverted')] whatever its outputs are,
    in the world the receipt was obtained in; with the flag false, [deploy]
    does not raise it and [call_function] returns the transaction id. *)
Theorem reverted_receipt_raises (ext : Externals) (receipt : gmap string pyval) :
  (receipt !! "reverted" = Some (VBool true) ->
     is_reverted (VDict receipt) = Ok (VBool true)
     /\ (forall network chainTag0 contract_meta types params priv to0 value0 gas0 w w1,
           deploy_submit ext network chainTag0 contract_meta types params priv to0 value0 gas0 w
           = (Ok (VDict receipt), w1) ->
           deploy ext network chainTag0 contract_meta types params priv to0 value0 gas0 w
           = (Raise (Exception "reverted"), w1))
     /\ (forall network chainTag0 abi_dict func_params priv to0 value0 gas0 w w1 tx_id,
           call_submit ext network chainTag0 abi_dict func_params priv to0 value0 gas0 w
           = (Ok (tx_id, VDict receipt), w1) ->
           call_function ext network chainTag0 abi_dict func_params priv to0 value0 gas0 w
           = (Raise (Exception "reverted"), w1)))
  /\ (receipt !! "reverted" = Some (VBool false) ->
     is_reverted (VDict receipt) = Ok (VBool false)
     /\ (forall network chainTag0 contract_meta types params priv to0 value0 gas0 w w1,
           deploy_submit ext network chainTag0 contract_meta types params priv to0 value0 gas0 w
           = (Ok (VDict receipt), w1) ->
           fst (deploy ext network chainTag0 contract_meta types params priv to0 value0 gas0 w)
           <> Raise (Exception "reverted"))
     /\ (forall network chainTag0 abi_dict func_params priv to0 value0 gas0 w w1 tx_id,
           call_submit ext network chainTag0 abi_dict func_params priv to0 value0 gas0 w
           = (Ok (tx_id, VDict receipt), w1) ->
           call_function ext network chainTag0 abi_dict func_params priv to0 value0 gas0 w
           = (Ok tx_id, w1))).
Proof.
  split; intros Hflag; (split; [unfold is_reverted; simpl; now rewrite Hflag |]); split.
  - intros * Hsub. unfold deploy. rewrite (bind_ok _ _ _ _ _ Hsub).
    unfold deploy_result, is_reverted, mbind, M_bind, lift. simpl. now rewrite Hflag.
  - intros * Hsub. unfold call_function. rewrite (bind_ok _ _ _ _ _ Hsub).
    unfold call_result, is_reverted, mbind, M_bind, lift. simpl. now rewrite Hflag.
  - intros * Hsub. unfold deploy. rewrite (bind_ok _ _ _ _ _ Hsub).
    unfold deploy_result, is_reverted, mbind, M_bind, lift, print. simpl. rewrite Hflag. simpl.
    destruct (_find_created_contracts (VDict receipt)) as [addrs | e] eqn:F.
    + destruct addrs; simpl; congruence.
    + apply find_created_contracts_raises in F. simpl. intros [= ->]. discriminate F.
  - intros * Hsub. unfold call_function. rewrite (bind_ok _ _ _ _ _ Hsub).
    unfold call_result, is_reverted, mbind, M_bind, lift. simpl. now rewrite Hflag.
Qed.

Lemma reverted_receipt_raises_witness :
  deploy Scenario.ext "http://node" 164 Scenario.artifact VNone VNone "00" VNone 0 3000000
    (Scenario.world VNone [Scenario.reverted_receipt])
  = (Raise (Exception "reverted"),
     snd (deploy_submit Scenario.ext "http://node" 164 Scenario.artifact VNone VNone "00" VNone
            0 3000000 (Scenario.world VNone [Scenario.reverted_receipt]))).
Proof.
  apply (proj1 (proj2 (proj1 (reverted_receipt_raises Scenario.ext Scenario.reverted_fields)
                         ltac:(vm_compute; reflexivity)))).
  vm_compute. reflexivity.
Defined.

(** C2, as the code has it: after a receipt that is not reverted and whose
    outputs are records, [deploy] returns the first created address in the
    order of the outputs; when no output carries one, indexing the empty
    list raises [IndexError], a fault of the interpreter and not an
    exception the script raises by name, before anything more is printed. *)
Theorem deploy_first_created_address (ext : Externals) (receipt : gmap string pyval)
    (outputs : list pyval)
    (network : string) (chainTag0 : Z) (contract_meta types params : pyval) (priv : string)
    (to0 : pyval) (value0 gas0 : Z) (w w1 : World) :
  receipt !! "reverted" = Some (VBool false) ->
  receipt !! "outputs" = Some (VList outputs) ->
  Forall is_dict outputs ->
  deploy_submit ext network chainTag0 contract_meta types params priv to0 value0 gas0 w
  = (Ok (VDict receipt), w1) ->
  (Forall (fun x => ~ creates x) outputs ->
     deploy ext network chainTag0 contract_meta types params priv to0 value0 gas0 w
     = (Raise IndexError, w1)
     /\ deliberate IndexError = false)
  /\ (forall (pre post : list pyval) (m : gmap string pyval) (a : pyval),
        outputs = (pre ++ VDict m :: post)%list ->
        Forall (fun x => ~ creates x) pre ->
        m !! "contractAddress" = Some a ->
        truthy a = true ->
        fst (deploy ext network chainTag0 contract_meta types params priv to0 value0 gas0 w)
        = Ok a).
Proof.
  intros Hflag Hout Hd Hsub. unfold deploy. rewrite (bind_ok _ _ _ _ _ Hsub).
  unfold deploy_result, is_reverted, _find_created_contracts, mbind, M_bind, lift.
  simpl. rewrite Hflag, Hout. simpl. split.
  - intros Hnone. split; [| reflexivity].
    rewrite <- (app_nil_r outputs), find_created_loop_skip by assumption.
    reflexivity.
  - intros pre post m a -> Hpre Ha Htrue.
    apply Forall_app in Hd as [Hdpre Hdpost].
    inversion Hdpost as [| ? ? _ Hdpost']; subst.
    rewrite find_created_loop_skip by assumption.
    simpl. rewrite Ha. simpl. rewrite Htrue.
    destruct (find_created_loop_extends post [a] Hdpost') as [l ->].
    reflexivity.
Qed.

Lemma deploy_first_created_address_witness :
  fst (deploy Scenario.ext "http://node" 164 Scenario.artifact VNone VNone "00" VNone 0 3000000
         (Scenario.world VNone [Scenario.created "0xA"]))
  = Ok (VStr "0xA").
Proof.
  refine (proj2 (deploy_first_created_address Scenario.ext (Scenario.created_fields "0xA")
                   [ VDict {[ "contractAddress" := VNone ]};
                     VDict {[ "contractAddress" := VStr "0xA" ]};
                     VDict {[ "contractAddress" := VStr "0xffff" ]} ]
                   "http://node" 164 Scenario.artifact VNone VNone "00" VNone 0 3000000
                   (Scenario.world VNone [Scenario.created "0xA"])
                   (snd (deploy_submit Scenario.ext "http://node" 164 Scenario.artifact VNone VNone
                           "00" VNone 0 3000000 (Scenario.world VNone [Scenario.created "0xA"])))
                   _ _ _ _)
                [ VDict {[ "contractAddress" := VNone ]} ]
                [ VDict {[ "contractAddress" := VStr "0xffff" ]} ]
                {[ "contractAddress" := VStr "0xA" ]} (VStr "0xA") eq_refl _ _ eq_refl).
  - vm_compute. reflexivity.
  - vm_compute. reflexivity.
  - repeat constructor; eexists; reflexivity.
  - vm_compute. reflexivity.
  - repeat constructor. intros (m & a & [= <-] & L & T).
    vm_compute in L. injection L as <-. discriminate T.
  - vm_compute. reflexivity.
Defined.

(** C2, as the claim has it, fails: on a receipt that is not reverted and
    creates nothing, [deploy] does not raise an exception of the script's
    own but the interpreter's [IndexError]. *)
Lemma deploy_missing_address_counterexample :
  Scenario.empty_fields !! "reverted" = Some (VBool false)
  /\ _find_created_contracts Scenario.empty_receipt = Ok []
  /\ fst (deploy Scenario.ext "http://node" 164 Scenario.artifact VNone VNone "00" VNone 0 3000000
            (Scenario.world VNone [Scenario.empty_receipt]))
     = Raise IndexError
  /\ ~ (exists e,
          fst (deploy Scenario.ext "http://node" 164 Scenario.artifact VNone VNone "00" VNone 0
                 3000000 (Scenario.world VNone [Scenario.empty_receipt]))
          = Raise e
          /\ deliberate e = true).
Proof.
  split; [vm_compute; reflexivity |]. split; [vm_compute; reflexivity |].
  split; [vm_compute; reflexivity |].
  intros (e & He & Hd).
  assert (E : fst (deploy Scenario.ext "http://node" 164 Scenario.artifact VNone VNone "00"
                     VNone 0 3000000 (Scenario.world VNone [Scenario.empty_receipt]))
              = Raise IndexError) by (vm_compute; reflexivity).
  rewrite E in He. injection He as <-. discriminate Hd.
Qed.

(** ** Counting the submitted transactions *)

Lemma quiet_ret {A} (a : A) : quiet (mret a).
Proof. intros w r w' [= _ <-]. reflexivity. Qed.

Lemma quiet_raise {A} (e : exn) : quiet (@raise A e).
Proof. intros w r w' [= _ <-]. reflexivity. Qed.

Lemma quiet_lift {A} (x : result A) : quiet (lift x).
Proof. intros w r w' [= _ <-]. reflexivity. Qed.

Lemma quiet_print line : quiet (print line).
Proof. intros w r w' [= _ <-]. reflexivity. Qed.

Lemma quiet_sleep s : quiet (sleep s).
Proof. intros w r w' [= _ <-]. reflexivity. Qed.

Lemma quiet_token_hex n : quiet (token_hex n).
Proof. intros w r w' [= _ <-]. reflexivity. Qed.

Lemma quiet_read_json_file path : quiet (read_json_file path).
Proof. intros w r w' [= _ <-]. reflexivity. Qed.

Lemma quiet_get url : quiet (http (GET url)).
Proof. intros w r w' [= _ <-]. reflexivity. Qed.

Lemma once_post url payload : submits_once (http (POST url payload)).
Proof. intros w r w' [= _ <-]. unfold submissions. simpl. lia. Qed.

Lemma quiet_bind {A B} (m : M A) (k : A -> M B) :
  quiet m -> (forall a, quiet (k a)) -> quiet (m ≫= k).
Proof.
  intros Hm Hk w r w' H. apply bind_inv in H as [(e & H & _) | (a & w1 & H1 & H2)].
  - exact (Hm _ _ _ H).
  - rewrite (Hk _ _ _ _ H2). exact (Hm _ _ _ H1).
Qed.

Lemma quiet_once {A} (m : M A) : quiet m -> submits_once m.
Proof. intros Hm w r w' H. rewrite (Hm _ _ _ H). lia. Qed.

Lemma once_bind_quiet {A B} (m : M A) (k : A -> M B) :
  submits_once m -> (forall a, quiet (k a)) -> submits_once (m ≫= k).
Proof.
  intros Hm Hk w r w' H. apply bind_inv in H as [(e & H & _) | (a & w1 & H1 & H2)].
  - exact (Hm _ _ _ H).
  - rewrite (Hk _ _ _ _ H2). exact (Hm _ _ _ H1).
Qed.

Lemma quiet_bind_once {A B} (m : M A) (k : A -> M B) :
  quiet m -> (forall a, submits_once (k a)) -> submits_once (m ≫= k).
Proof.
  intros Hm Hk w r w' H. apply bind_inv in H as [(e & H & _) | (a & w1 & H1 & H2)].
  - rewrite (Hm _ _ _ H). lia.
  - rewrite <- (Hm _ _ _ H1). exact (Hk _ _ _ _ H2).
Qed.

Lemma quiet_if {A} (b : bool) (m1 m2 : M A) : quiet m1 -> quiet m2 -> quiet (if b then m1 else m2).
Proof. now destruct b. Qed.

Create HintDb quiet.

#[local] Hint Resolve quiet_ret quiet_raise quiet_lift quiet_print quiet_sleep quiet_token_hex
  quiet_read_json_file quiet_get quiet_if : quiet.

(** Discharges [quiet] for a sequence of quiet commands. *)
Ltac quiet_steps :=
  repeat first
    [ apply quiet_bind; [| intros ?]
    | apply quiet_if
    | solve [auto with quiet] ].

Lemma quiet_get_block network id_or_number : quiet (get_block network id_or_number).
Proof. unfold get_block. quiet_steps. Qed.

Lemma quiet_build_tx ext priv network chainTag0 to0 value0 data0 gas0 dependsOn0 :
  quiet (build_tx ext priv network chainTag0 to0 value0 data0 gas0 dependsOn0).
Proof.
  unfold build_tx, build_tx_body, best_block, _calc_nonce.
  pose proof quiet_get_block. quiet_steps.
Qed.

Lemma once_post_tx network raw : submits_once (post_tx network raw).
Proof.
  unfold post_tx. apply once_bind_quiet; [apply once_post |].
  intros r. quiet_steps.
Qed.

Lemma quiet_tx_receipt ext network tx_id : quiet (tx_receipt ext network tx_id).
Proof. unfold tx_receipt. quiet_steps. Qed.

Lemma quiet_wait_loop ext network tx_id n : forall r0, quiet (wait_loop ext network tx_id n r0).
Proof.
  induction n as [| n IH]; intros r0; cbn [wait_loop]; [apply quiet_ret |].
  pose proof (quiet_tx_receipt ext network tx_id). quiet_steps.
Qed.

Lemma quiet_wait_for_receipt ext network tx_id wait_for :
  quiet (wait_for_receipt ext network tx_id wait_for).
Proof.
  unfold wait_for_receipt. pose proof (quiet_wait_loop ext network tx_id). quiet_steps.
Qed.

Lemma once_deploy ext network chainTag0 contract_meta types params priv to0 value0 gas0 :
  submits_once (deploy ext network chainTag0 contract_meta types params priv to0 value0 gas0).
Proof.
  unfold deploy. apply once_bind_quiet.
  - unfold deploy_submit.
    do 3 (apply quiet_bind_once; [auto with quiet | intros ?]).
    apply quiet_bind_once; [apply quiet_build_tx | intros raw].
    apply once_bind_quiet; [apply once_post_tx | intros tx_id].
    pose proof (quiet_wait_for_receipt ext network tx_id). quiet_steps.
  - intros receipt. unfold deploy_result. quiet_steps.
Qed.

Lemma once_call_function ext network chainTag0 abi_dict func_params priv to0 value0 gas0 :
  submits_once (call_function ext network chainTag0 abi_dict func_params priv to0 value0 gas0).
Proof.
  unfold call_function. apply once_bind_quiet.
  - unfold call_submit.
    do 6 (apply quiet_bind_once; [auto with quiet | intros ?]).
    apply quiet_bind_once; [apply quiet_build_tx | intros raw].
    apply once_bind_quiet; [apply once_post_tx | intros tx_id].
    pose proof (quiet_wait_for_receipt ext network tx_id). quiet_steps.
  - intros [tx_id receipt]. unfold call_result. quiet_steps.
Qed.

Lemma once_step_vvet ext NETWORK CHAIN_TAG private :
  submits_once (step_vvet ext NETWORK CHAIN_TAG private).
Proof.
  unfold step_vvet. do 2 (apply quiet_bind_once; [auto with quiet | intros ?]).
  apply once_deploy.
Qed.

Lemma once_step_factory ext NETWORK CHAIN_TAG private address :
  submits_once (step_factory ext NETWORK CHAIN_TAG private address).
Proof.
  unfold step_factory. do 2 (apply quiet_bind_once; [auto with quiet | intros ?]).
  apply once_bind_quiet; [apply once_deploy | intros; apply quiet_ret].
Qed.

Lemma once_step_router ext NETWORK CHAIN_TAG private f v :
  submits_once (step_router ext NETWORK CHAIN_TAG private f v).
Proof.
  unfold step_router. do 2 (apply quiet_bind_once; [auto with quiet | intros ?]).
  apply once_deploy.
Qed.

Lemma once_step_pair ext NETWORK CHAIN_TAG private factory f v :
  submits_once (step_pair ext NETWORK CHAIN_TAG private factory f v).
Proof.
  unfold step_pair. do 2 (apply quiet_bind_once; [auto with quiet | intros ?]).
  apply once_call_function.
Qed.

(** C5: when one of the four steps fails, the run of the sequence ends
    with that failure in the very world the step failed in: nothing of a
    later step is built or sent, and a failure in step [k] leaves at most
    [k] submitted transactions. *)
Theorem steps_abort_on_failure (ext : Externals) (NETWORK : string) (CHAIN_TAG : Z)
    (private address : string) (w wf : World) (e : exn) :
  (step_vvet ext NETWORK CHAIN_TAG private w = (Raise e, wf) ->
     steps ext NETWORK CHAIN_TAG private address w = (Raise e, wf)
     /\ (submissions wf <= submissions w + 1)%nat)
  /\ (forall vvet_addr w1,
        step_vvet ext NETWORK CHAIN_TAG private w = (Ok vvet_addr, w1) ->
        step_factory ext NETWORK CHAIN_TAG private address w1 = (Raise e, wf) ->
        steps ext NETWORK CHAIN_TAG private address w = (Raise e, wf)
        /\ (submissions wf <= submissions w + 2)%nat)
  /\ (forall vvet_addr w1 factory factory_addr w2,
        step_vvet ext NETWORK CHAIN_TAG private w = (Ok vvet_addr, w1) ->
        step_factory ext NETWORK CHAIN_TAG private address w1 = (Ok (factory, factory_addr), w2) ->
        step_router ext NETWORK CHAIN_TAG private factory_addr vvet_addr w2 = (Raise e, wf) ->
        steps ext NETWORK CHAIN_TAG private address w = (Raise e, wf)
        /\ (submissions wf <= submissions w + 3)%nat)
  /\ (forall vvet_addr w1 factory factory_addr w2 router_addr w3,
        step_vvet ext NETWORK CHAIN_TAG private w = (Ok vvet_addr, w1) ->
        step_factory ext NETWORK CHAIN_TAG private address w1 = (Ok (factory, factory_addr), w2) ->
        step_router ext NETWORK CHAIN_TAG private factory_addr vvet_addr w2 = (Ok router_addr, w3) ->
        step_pair ext NETWORK CHAIN_TAG private factory factory_addr vvet_addr w3 = (Raise e, wf) ->
        steps ext NETWORK CHAIN_TAG private address w = (Raise e, wf)
        /\ (submissions wf <= submissions w + 4)%nat).
Proof.
  unfold steps. split; [| split; [| split]].
  - intros H1. split; [now apply bind_raise | now apply once_step_vvet in H1].
  - intros a w1 H1 H2. split.
    + rewrite (bind_ok _ _ _ _ _ H1). now apply bind_raise.
    + apply once_step_vvet in H1. apply once_step_factory in H2. lia.
  - intros a w1 f b w2 H1 H2 H3. split.
    + rewrite (bind_ok _ _ _ _ _ H1), (bind_ok _ _ _ _ _ H2). now apply bind_raise.
    + apply once_step_vvet in H1. apply once_step_factory in H2.
      apply once_step_router in H3. lia.
  - intros a w1 f b w2 c w3 H1 H2 H3 H4. split.
    + rewrite (bind_ok _ _ _ _ _ H1), (bind_ok _ _ _ _ _ H2), (bind_ok _ _ _ _ _ H3).
      now apply bind_raise.
    + apply once_step_vvet in H1. apply once_step_factory in H2.
      apply once_step_router in H3. apply once_step_pair in H4. lia.
Qed.

Lemma steps_abort_on_failure_witness :
  steps Scenario.ext "http://node" 164 "00" "0x00"
    (Scenario.world VNone [Scenario.created "0xA"; Scenario.reverted_receipt])
  = (Raise (Exception "reverted"),
     snd (step_factory Scenario.ext "http://node" 164 "00" "0x00"
            (snd (step_vvet Scenario.ext "http://node" 164 "00"
                    (Scenario.world VNone [Scenario.created "0xA"; Scenario.reverted_receipt])))))
  /\ (submissions
        (snd (step_factory Scenario.ext "http://node" 164 "00" "0x00"
                (snd (step_vvet Scenario.ext "http://node" 164 "00"
                        (Scenario.world VNone
                           [Scenario.created "0xA"; Scenario.reverted_receipt])))))
      <= submissions (Scenario.world VNone [Scenario.created "0xA"; Scenario.reverted_receipt]) + 2)%nat.
Proof.
  apply (proj1 (proj2 (steps_abort_on_failure Scenario.ext "http://node" 164 "00" "0x00"
                         (Scenario.world VNone [Scenario.created "0xA"; Scenario.reverted_receipt])
                         _ (Exception "reverted")))
           (VStr "0xA")
           (snd (step_vvet Scenario.ext "http://node" 164 "00"
                   (Scenario.world VNone [Scenario.created "0xA"; Scenario.reverted_receipt])))).
  - vm_compute. reflexivity.
  - vm_compute. reflexivity.
Defined.

(** Any failure of the sequence is the failure of one of its steps. *)
Lemma steps_failure_cases (ext : Externals) (NETWORK : string) (CHAIN_TAG : Z)
    (private address : string) (w wf : World) (e : exn) :
  steps ext NETWORK CHAIN_TAG private address w = (Raise e, wf) ->
  step_vvet ext NETWORK CHAIN_TAG private w = (Raise e, wf)
  \/ (exists a w1,
        step_vvet ext NETWORK CHAIN_TAG private w = (Ok a, w1)
        /\ (step_factory ext NETWORK CHAIN_TAG private address w1 = (Raise e, wf)
            \/ exists f b w2,
                 step_factory ext NETWORK CHAIN_TAG private address w1 = (Ok (f, b), w2)
                 /\ (step_router ext NETWORK CHAIN_TAG private b a w2 = (Raise e, wf)
                     \/ exists c w3,
                          step_router ext NETWORK CHAIN_TAG private b a w2 = (Ok c, w3)
                          /\ step_pair ext NETWORK CHAIN_TAG private f b a w3 = (Raise e, wf)))).
Proof.
  unfold steps. intros H.
  apply bind_inv in H as [(e1 & H1 & [= <-]) | (a & w1 & H1 & H)]; [now left |].
  right. exists a, w1. split; [exact H1 |].
  apply bind_inv in H as [(e2 & H2 & [= <-]) | ([f b] & w2 & H2 & H)]; [now left |].
  right. exists f, b, w2. split; [exact H2 |].
  apply bind_inv in H as [(e3 & H3 & [= <-]) | (c & w3 & H3 & H)]; [now left |].
  right. exists c, w3. split; [exact H3 |].
  apply bind_inv in H as [(e4 & H4 & [= <-]) | (d & w4 & H4 & H)]; [exact H4 |].
  discriminate H.
Qed.

(** ** The pre-flight check *)

(** 14,000 units of energy, in base units and as the node writes it. *)
Lemma exact_minimum_hex : int16 "0x2f6f10780d22cc00000" = Ok (14000 * 10 ^ 18).
Proof. vm_compute. reflexivity. Qed.

Lemma exact_minimum_not_above :
  exists q, int_truediv (14000 * 10 ^ 18) (10 ^ 18) = Ok q /\ float_gt_int q 14000 = false.
Proof.
  exists (S754_finite false 7696581394432000 (-39)).
  split; vm_compute; reflexivity.
Qed.

Lemma get_account_answered NETWORK account_id block w resp v :
  node w (GET (_build_url NETWORK ("/accounts/" ++ account_id ++ "?revision=" ++ block))
            :: sent w) = Ok resp ->
  status_code resp = 200 ->
  json resp = Ok v ->
  get_account NETWORK account_id block w
  = (Ok v,
     {| node := node w;
        sent := GET (_build_url NETWORK ("/accounts/" ++ account_id ++ "?revision=" ++ block))
                  :: sent w;
        rng := rng w; drawn := drawn w; files := files w; slept := slept w;
        stdout := stdout w |}).
Proof.
  intros Hnode Hstatus Hjson. unfold get_account, mbind, M_bind, http.
  cbn [node sent]. rewrite Hnode, Hstatus. cbn [negb Z.eqb Pos.eqb].
  unfold lift. now rewrite Hjson.
Qed.

(** A quantity of the account in display units. *)
Lemma display_units (acc : gmap string pyval) key s n q :
  acc !! key = Some (VStr s) ->
  int16 s = Ok n ->
  int_truediv n (10 ^ 18) = Ok q ->
  (e ← getitem (VDict acc) key; n ← int16_value e; int_truediv n (10 ^ 18)) = Ok q.
Proof.
  intros Hkey Hs Hq. unfold getitem. rewrite Hkey.
  rewrite result_bind_ok. unfold int16_value. rewrite Hs. now rewrite result_bind_ok.
Qed.

(** C1, where the code departs from it: an account that holds exactly
    14,000 units of energy and no code does not pass. The first assertion
    compares with [>], it raises [AssertionError('Insufficient VTHO')], and
    nothing has been submitted. *)
Theorem preflight_rejects_exact_minimum (ext : Externals) (NETWORK address : string)
    (w : World) (resp : Response) (acc : gmap string pyval) (balance : string) (n : Z)
    (q : spec_float) :
  node w (GET (_build_url NETWORK ("/accounts/" ++ address ++ "?revision=best")) :: sent w)
  = Ok resp ->
  status_code resp = 200 ->
  json resp = Ok (VDict acc) ->
  acc !! "balance" = Some (VStr balance) ->
  int16 balance = Ok n ->
  int_truediv n (10 ^ 18) = Ok q ->
  acc !! "energy" = Some (VStr "0x2f6f10780d22cc00000") ->
  acc !! "hasCode" = Some (VBool false) ->
  exists w',
    preflight ext NETWORK address w = (Raise (AssertionError "Insufficient VTHO"), w')
    /\ submissions w' = submissions w.
Proof.
  intros Hnode Hstatus Hjson Hbal Hn Hq Hen Hcode.
  destruct exact_minimum_not_above as (q0 & Hq0 & Hgt).
  pose proof (display_units acc _ _ _ _ Hbal Hn Hq) as Dbal.
  pose proof (display_units acc _ _ _ _ Hen exact_minimum_hex Hq0) as Den.
  unfold preflight.
  erewrite bind_ok by reflexivity.
  erewrite bind_ok
    by (apply (get_account_answered _ _ _ _ resp); [exact Hnode | exact Hstatus | exact Hjson]).
  rewrite Dbal, Den. unfold getitem. rewrite Hcode.
  unfold lift, print, raise, mbind, M_bind, mret, M_ret. rewrite Hgt.
  eexists. split; reflexivity.
Qed.

Lemma preflight_rejects_exact_minimum_witness :
  exists w',
    preflight Scenario.ext "http://node" "0x00"
      (Scenario.world (Scenario.account "0x2f6f10780d22cc00000" false) [])
    = (Raise (AssertionError "Insufficient VTHO"), w')
    /\ submissions w'
       = submissions (Scenario.world (Scenario.account "0x2f6f10780d22cc00000" false) []).
Proof.
  refine (preflight_rejects_exact_minimum Scenario.ext "http://node" "0x00" _
            {| status_code := 200; text := "";
               json := Ok (Scenario.account "0x2f6f10780d22cc00000" false) |}
            {[ "balance" := VStr "0x0"; "energy" := VStr "0x2f6f10780d22cc00000";
               "hasCode" := VBool false ]}
            "0x0" 0 (S754_zero false) _ _ _ _ _ _ _ _);
    vm_compute; reflexivity.
Defined.

(** The whole script on such an account: it stops at the assertion. *)
Example main_rejects_exact_minimum :
  fst (main Scenario.ext Scenario.argv
         (Scenario.world (Scenario.account "0x2f6f10780d22cc00000" false)
            [Scenario.created "0xA"]))
  = Raise (AssertionError "Insufficient VTHO")
  /\ submissions (snd (main Scenario.ext Scenario.argv
                         (Scenario.world (Scenario.account "0x2f6f10780d22cc00000" false)
                            [Scenario.created "0xA"])))
     = 0%nat.
Proof. split; vm_compute; reflexivity. Qed.

(** One unit more passes, and the four steps run. *)
Example main_accepts_above_minimum :
  fst (main Scenario.ext Scenario.argv
         (Scenario.world (Scenario.account "0x2f6fee83785d4240000" false)
            [Scenario.created "0xA"; Scenario.created "0xB"; Scenario.created "0xC";
             Scenario.created "0xD"]))
  = Ok tt.
Proof. vm_compute. reflexivity. Qed.

(** * Further properties of the script *)

(** ** URLs *)

Lemma rstrip_trailing c s : rstrip c (s ++ String c "") = rstrip c s.
Proof.
  induction s as [| a s IH].
  - simpl. now rewrite Ascii.eqb_refl.
  - rewrite string_app_cons. simpl. now rewrite IH.
Qed.

Lemma rstrip_unchanged c s : ends_with c s = false -> rstrip c s = s.
Proof.
  induction s as [| a s IH]; [reflexivity |].
  intros H. cbn [rstrip]. destruct s as [| b s].
  - simpl in *. now rewrite H.
  - rewrite IH by exact H. cbn [String.eqb]. now rewrite andb_false_r.
Qed.

Lemma lstrip_unchanged c s : starts_with c s = false -> lstrip c s = s.
Proof. destruct s as [| a s]; [reflexivity |]. simpl. now intros ->. Qed.

(** X1: a slash at the end of the base or at the start of the tail does
    not change the URL that is built. *)
Theorem build_url_extra_slashes (base tail : string) :
  _build_url (base ++ "/") tail = _build_url base tail
  /\ _build_url base ("/" ++ tail) = _build_url base tail
  /\ _build_url (base ++ "/") ("/" ++ tail) = _build_url base tail.
Proof.
  unfold _build_url. rewrite rstrip_trailing.
  change (lstrip "/" ("/" ++ tail)) with (lstrip "/" tail).
  auto.
Qed.

(** X2: a base without a final slash and a tail without an initial one are
    joined by exactly one slash. *)
Theorem build_url_joins (base tail : string) :
  ends_with "/" base = false ->
  starts_with "/" tail = false ->
  _build_url base tail = base ++ "/" ++ tail.
Proof.
  intros Hb Ht. unfold _build_url.
  now rewrite rstrip_unchanged, lstrip_unchanged.
Qed.

Lemma build_url_joins_witness :
  _build_url "https://solo.veblocks.net" "blocks/best" = "https://solo.veblocks.net/blocks/best".
Proof. apply (build_url_joins "https://solo.veblocks.net" "blocks/best"); reflexivity. Defined.

(** ** Hexadecimal text *)

Lemma bytes_fromhex_byte (b : Byte.byte) (rest : string) :
  bytes_fromhex (hex_of_byte b ++ rest) = (r ← bytes_fromhex rest; Ok (b :: r)).
Proof. destruct b; reflexivity. Qed.

Lemma bytes_fromhex_app (bs : bytes) (rest : string) :
  bytes_fromhex (bytes_hex bs ++ rest) = (r ← bytes_fromhex rest; Ok (bs ++ r)%list).
Proof.
  induction bs as [| b bs IH].
  - rewrite string_app_nil. now destruct (bytes_fromhex rest).
  - cbn [bytes_hex]. rewrite string_app_assoc, bytes_fromhex_byte, IH.
    now destruct (bytes_fromhex rest).
Qed.

Lemma bytes_fromhex_bytes_hex (bs : bytes) : bytes_fromhex (bytes_hex bs) = Ok bs.
Proof.
  induction bs as [| b bs IH]; [reflexivity |].
  cbn [bytes_hex]. now rewrite bytes_fromhex_byte, IH.
Qed.

(** X3: [bytes.fromhex] reads back what [hex] wrote, also when more text
    follows, and the other way round the text of the bytes read is the
    text that was written. *)
Theorem bytes_fromhex_hex (bs : bytes) :
  bytes_fromhex (bytes_hex bs) = Ok bs
  /\ (forall rest, bytes_fromhex (bytes_hex bs ++ rest)
                   = (r ← bytes_fromhex rest; Ok (bs ++ r)%list))
  /\ (bs' ← bytes_fromhex (bytes_hex bs); Ok (bytes_hex bs')) = Ok (bytes_hex bs).
Proof.
  split; [apply bytes_fromhex_bytes_hex |]. split; [apply bytes_fromhex_app |].
  now rewrite bytes_fromhex_bytes_hex.
Qed.

(** X4: [int(s, 16)] of a [0x] quantity is the integer its bytes denote,
    most significant first; so is [make_chaintag]. *)
Theorem int16_prefixed (bs : bytes) :
  bs <> [] ->
  int16 ("0x" ++ bytes_hex bs) = Ok (be_value bs)
  /\ make_chaintag ("0x" ++ bytes_hex bs) = Ok (be_value bs)
  /\ 0 <= be_value bs < 256 ^ Z.of_nat (length bs).
Proof.
  intros Hne.
  assert (G : int16 ("0x" ++ bytes_hex bs) = Ok (be_value bs)).
  { rewrite <- (int16_digits_bytes_hex bs Hne).
    destruct bs as [| b bs]; [congruence |].
    cbn [bytes_hex]. destruct (hex_of_byte_value b) as (h & l & -> & Hh & _).
    rewrite !string_app_cons, !string_app_nil.
    destruct (hex_value_plain _ _ Hh) as (Uh & _).
    unfold int16. change (skip_spaces (String "0" (String "x" (String h (String l (bytes_hex bs))))))
      with (String "0" (String "x" (String h (String l (bytes_hex bs))))).
    cbn [strip_sign]. change (Ascii.eqb "0" "-") with false. change (Ascii.eqb "0" "+") with false.
    cbv iota. unfold strip_0x.
    change (Ascii.eqb "0" "0" && (Ascii.eqb "x" "x" || Ascii.eqb "x" "X")) with true.
    cbv iota. now rewrite Uh. }
  split; [exact G |]. split; [exact G | apply be_value_range].
Qed.

Lemma int16_prefixed_witness : make_chaintag "0xa4" = Ok 164.
Proof. apply (proj1 (proj2 (int16_prefixed [Byte.xa4] ltac:(discriminate)))). Defined.

(** ** Reading artifacts and receipts *)

Lemma find_created_loop_filter (xs : list pyval) : forall a,
  Forall is_dict xs ->
  find_created_loop xs a = Ok (a ++ created_addresses xs)%list.
Proof.
  induction xs as [| x xs IH]; intros a Hd.
  - simpl. now rewrite app_nil_r.
  - inversion Hd as [| ? ? [m ->] Hxs]; subst.
    cbn [find_created_loop]. unfold created_addresses. cbn [fmap list_fmap List.filter].
    unfold contract_address at 1. cbn [dict_get]. rewrite result_bind_ok.
    destruct (truthy (default VNone (m !! "contractAddress"))).
    + rewrite IH by exact Hxs. now rewrite <- app_assoc.
    + now rewrite IH by exact Hxs.
Qed.

(** X5: on a receipt whose outputs are records, [_find_created_contracts]
    returns the truthy [contractAddress] values, all of them and in the
    order of the outputs. *)
Theorem find_created_contracts_spec (receipt : gmap string pyval) (outputs : list pyval) :
  receipt !! "outputs" = Some (VList outputs) ->
  Forall is_dict outputs ->
  _find_created_contracts (VDict receipt) = Ok (created_addresses outputs).
Proof.
  intros Hout Hd. unfold _find_created_contracts. cbn [getitem]. rewrite Hout.
  rewrite result_bind_ok. cbn [py_iter]. rewrite result_bind_ok.
  now rewrite find_created_loop_filter.
Qed.

Lemma find_created_contracts_spec_witness :
  _find_created_contracts (Scenario.created "0xA") = Ok [VStr "0xA"; VStr "0xffff"].
Proof.
  refine (find_created_contracts_spec (Scenario.created_fields "0xA")
            [ VDict {[ "contractAddress" := VNone ]};
              VDict {[ "contractAddress" := VStr "0xA" ]};
              VDict {[ "contractAddress" := VStr "0xffff" ]} ] _ _).
  - vm_compute. reflexivity.
  - repeat constructor; eexists; reflexivity.
Defined.

(** X6: a receipt without [outputs] makes [_find_created_contracts] raise
    [KeyError], and an output that is not a record, met after records only,
    [AttributeError]. *)
Theorem find_created_contracts_malformed (receipt : gmap string pyval) :
  (receipt !! "outputs" = None ->
     _find_created_contracts (VDict receipt) = Raise (KeyError "outputs"))
  /\ (forall (pre post : list pyval) (x : pyval),
        receipt !! "outputs" = Some (VList (pre ++ x :: post)) ->
        Forall is_dict pre ->
        ~ is_dict x ->
        _find_created_contracts (VDict receipt) = Raise AttributeError).
Proof.
  unfold _find_created_contracts. cbn [getitem]. split.
  - now intros ->.
  - intros pre post x -> Hpre Hx. rewrite result_bind_ok. cbn [py_iter].
    rewrite result_bind_ok.
    assert (G : forall a, find_created_loop (pre ++ x :: post) a = Raise AttributeError).
    { induction Hpre as [| y pre [m ->] _ IH]; intros a.
      - simpl. destruct x; try reflexivity. exfalso. apply Hx. now eexists.
      - simpl. destruct (truthy _); apply IH. }
    apply G.
Qed.

Lemma find_created_contracts_malformed_witness :
  _find_created_contracts
    (VDict {[ "outputs" := VList [ VDict {[ "contractAddress" := VStr "0xA" ]}; VNone ] ]})
  = Raise AttributeError.
Proof.
  refine (proj2 (find_created_contracts_malformed _)
            [ VDict {[ "contractAddress" := VStr "0xA" ]} ] [] VNone _ _ _).
  - vm_compute. reflexivity.
  - repeat constructor; eexists; reflexivity.
  - intros [m H]. discriminate H.
Defined.

Lemma find_func_loop_sound (xs : list pyval) func_name v :
  find_func_loop xs func_name = Ok v ->
  v = VNone \/ (v ∈ xs /\ named func_name v).
Proof.
  induction xs as [| x xs IH]; simpl.
  - intros [= <-]. now left.
  - destruct x; simpl; try discriminate.
    destruct (eq_str _ func_name) eqn:E.
    + intros [= <-]. right. split; [apply list_elem_of_here |].
      now apply name_matches.
    + intros H. destruct (IH H) as [-> | [Hin Hn]]; [now left |].
      right. split; [now apply list_elem_of_further | exact Hn].
Qed.

(** X7: whatever the artifact, a result of [find_func_abi] is [None] or a
    descriptor of the artifact's [abi] list that carries the requested
    name. *)
Theorem find_func_abi_sound (contract_meta : pyval) (func_name : string) (v : pyval) :
  find_func_abi contract_meta func_name = Ok v ->
  v = VNone
  \/ (named func_name v
      /\ exists abis, getitem contract_meta "abi" = Ok (VList abis) /\ v ∈ abis).
Proof.
  unfold find_func_abi.
  destruct (getitem contract_meta "abi") as [abi | e] eqn:G; [| discriminate].
  rewrite result_bind_ok.
  destruct (py_iter abi) as [xs | e] eqn:I; [| discriminate].
  rewrite result_bind_ok. intros H.
  destruct (find_func_loop_sound _ _ _ H) as [-> | [Hin Hn]]; [now left |].
  right. split; [exact Hn |].
  destruct abi; try discriminate; cbn [py_iter] in I; injection I as <-.
  - exfalso. apply list_elem_of_fmap in Hin as (c & -> & _).
    destruct Hn as (m & [=] & _).
  - now exists l.
  - exfalso. apply list_elem_of_fmap in Hin as (k & -> & _).
    destruct Hn as (m' & [=] & _).
Qed.

Lemma find_func_abi_sound_witness :
  VDict {[ "name" := VStr "createPair"; "type" := VStr "function" ]} = VNone
  \/ (named "createPair" (VDict {[ "name" := VStr "createPair"; "type" := VStr "function" ]})
      /\ exists abis, getitem Scenario.artifact "abi" = Ok (VList abis)
                      /\ VDict {[ "name" := VStr "createPair"; "type" := VStr "function" ]} ∈ abis).
Proof.
  apply (find_func_abi_sound Scenario.artifact "createPair"). vm_compute. reflexivity.
Defined.

(** X8: an artifact without an [abi] entry makes [find_func_abi] raise
    [KeyError], and a descriptor that is not a record, met before any
    match, [AttributeError]. *)
Theorem find_func_abi_malformed (contract_meta : gmap string pyval) (func_name : string) :
  (contract_meta !! "abi" = None ->
     find_func_abi (VDict contract_meta) func_name = Raise (KeyError "abi"))
  /\ (forall (pre post : list pyval) (x : pyval),
        contract_meta !! "abi" = Some (VList (pre ++ x :: post)) ->
        Forall is_dict pre ->
        Forall (fun y => ~ named func_name y) pre ->
        ~ is_dict x ->
        find_func_abi (VDict contract_meta) func_name = Raise AttributeError).
Proof.
  unfold find_func_abi. cbn [getitem]. split.
  - now intros ->.
  - intros pre post x -> Hpre Hn Hx. rewrite result_bind_ok. cbn [py_iter].
    rewrite result_bind_ok, find_func_loop_skip by assumption.
    simpl. destruct x; try reflexivity. exfalso. apply Hx. now eexists.
Qed.

Lemma find_func_abi_malformed_witness :
  find_func_abi (VDict {[ "abi" := VList [ VDict {[ "type" := VStr "constructor" ]};
                                           VStr "createPair" ] ]}) "createPair"
  = Raise AttributeError.
Proof.
  refine (proj2 (find_func_abi_malformed _ "createPair")
            [ VDict {[ "type" := VStr "constructor" ]} ] [] (VStr "createPair") _ _ _ _).
  - vm_compute. reflexivity.
  - repeat constructor; eexists; reflexivity.
  - repeat constructor. intros (d & [= <-] & H). vm_compute in H. discriminate H.
  - intros [m H]. discriminate H.
Defined.



(** X10: [get_bytecode] fails with [KeyError] on an artifact without the
    key, with [TypeError] on a bytecode that is not a string and with
    [ValueError] on hexadecimal text with a digit left over. *)
Theorem get_bytecode_malformed (contract_meta : gmap string pyval) (key : string) :
  (contract_meta !! key = None ->
     get_bytecode (VDict contract_meta) key = Raise (KeyError key))
  /\ (forall v, contract_meta !! key = Some v -> (forall s, v <> VStr s) ->
        get_bytecode (VDict contract_meta) key = Raise TypeError)
  /\ (forall (bs : bytes) (n : N), contract_meta !! key = Some (VStr (bytes_hex bs ++ String (hex_digit n) "")) ->
        (n < 16)%N ->
        get_bytecode (VDict contract_meta) key = Raise ValueError).
Proof.
  unfold get_bytecode. cbn [getitem]. split; [| split].
  - now intros ->.
  - intros v -> Hv. rewrite result_bind_ok. destruct v; try reflexivity.
    now destruct (Hv s).
  - intros bs n -> Hn. rewrite result_bind_ok.
    induction bs as [| b bs IH].
    + rewrite string_app_nil.
      assert (E : is_space (hex_digit n) = false).
      { destruct n as [| p]; [reflexivity |].
        do 4 (destruct p as [p | p |]; try reflexivity); lia. }
      simpl. now rewrite E.
    + cbn [bytes_hex]. rewrite string_app_assoc, bytes_fromhex_byte, IH. reflexivity.
Qed.

Lemma get_bytecode_malformed_witness :
  get_bytecode (VDict {[ "bytecode" := VStr "60806" ]}) "bytecode" = Raise ValueError.
Proof.
  refine (proj2 (proj2 (get_bytecode_malformed _ "bytecode")) [Byte.x60; Byte.x80] 6%N _ _).
  - vm_compute. reflexivity.
  - reflexivity.
Defined.

(** ** Waiting for a receipt, whatever the node does *)

(** One poll: the request is recorded, and a document that comes back was
    the node's answer. *)
Lemma tx_receipt_inv ext network tx_id w r w' :
  tx_receipt ext network tx_id w = (r, w') ->
  w' = after_polls (receipt_request ext network tx_id) 1 0 w
  /\ (forall v, r = Ok v -> answers w (receipt_request ext network tx_id) 0 v).
Proof.
  unfold tx_receipt, receipt_request, mbind, M_bind, http, answers. cbn [node sent repeat app].
  assert (W : {| node := node w;
                 sent := GET (_build_url network ("transactions/" ++ py_str ext tx_id ++ "/receipt"))
                           :: sent w;
                 rng := rng w; drawn := drawn w; files := files w; slept := slept w;
                 stdout := stdout w |}
              = after_polls (GET (_build_url network
                                    ("transactions/" ++ py_str ext tx_id ++ "/receipt"))) 1 0 w).
  { unfold after_polls. simpl. f_equal. lia. }
  rewrite W.
  destruct (node w _) as [resp | e] eqn:Hnode.
  - destruct (status_code resp =? 200)%Z eqn:Hs; cbn [negb].
    + unfold lift. intros [= <- <-]. split; [reflexivity |].
      intros v Hv. exists resp. apply Z.eqb_eq in Hs. auto.
    + unfold raise. intros [= <- <-]. split; [reflexivity | discriminate].
  - intros [= <- <-]. split; [reflexivity | discriminate].
Qed.

(** How a run of the loop can end: with the truthy answer of poll [k] after
    [k] pauses, with a falsy value after all [n] polls and pauses, or with
    the exception of poll [k]. *)
Lemma wait_loop_inv ext network tx_id n : forall r0 w r w',
  wait_loop ext network tx_id n r0 w = (r, w') ->
  (exists k v, (k < n)%nat /\ r = Ok v /\ truthy v = true
     /\ w' = after_polls (receipt_request ext network tx_id) (S k) k w
     /\ answers w (receipt_request ext network tx_id) k v
     /\ forall i, (i < k)%nat ->
          exists u, answers w (receipt_request ext network tx_id) i u /\ truthy u = false)
  \/ (exists v, r = Ok v /\ (truthy r0 = false -> truthy v = false)
     /\ w' = after_polls (receipt_request ext network tx_id) n n w)
  \/ (exists k e, (k < n)%nat /\ r = Raise e
     /\ w' = after_polls (receipt_request ext network tx_id) (S k) k w).
Proof.
  set (q := receipt_request ext network tx_id).
  induction n as [| n IH]; intros r0 w r w' H.
  - cbn [wait_loop] in H. injection H as <- <-. right. left. exists r0.
    split; [reflexivity |]. split; [auto |].
    unfold after_polls. destruct w. simpl. f_equal. lia.
  - cbn [wait_loop] in H.
    apply bind_inv in H as [(e & H & ->) | (v & w1 & H1 & H)].
    + apply tx_receipt_inv in H as [-> _]. right. right. exists 0%nat, e.
      split; [lia |]. split; reflexivity.
    + apply tx_receipt_inv in H1 as [-> Hans]. specialize (Hans v eq_refl). fold q in Hans.
      destruct (truthy v) eqn:Hv.
      * injection H as <- <-. left. exists 0%nat, v.
        split; [lia |]. repeat split; try assumption || reflexivity. intros i Hi. lia.
      * apply bind_inv in H as [(e & H & _) | ([] & w2 & H2 & H)]; [discriminate H |].
        assert (w2 = after_polls q 1 1 w) as ->.
        { injection H2 as <-. unfold after_polls. simpl. f_equal. lia. }
        destruct (IH v _ _ _ H)
          as [(k & u & Hk & -> & Hu & -> & Hat & Hbefore)
             | [(u & -> & Hu & ->) | (k & e & Hk & -> & ->)]].
        -- left. exists (S k), u. split; [lia |]. split; [reflexivity |].
           split; [exact Hu |]. split; [apply after_polls_shift |].
           split; [now apply answers_shift |].
           intros [| i] Hi.
           ++ exists v. split; assumption.
           ++ destruct (Hbefore i ltac:(lia)) as (u' & Hu' & Hf).
              exists u'. split; [now apply answers_shift | exact Hf].
        -- right. left. exists u. split; [reflexivity |]. split; [auto |].
           apply after_polls_shift.
        -- right. right. exists (S k), e. split; [lia |]. split; [reflexivity |].
           apply after_polls_shift.
Qed.

(** X11: a receipt that [wait_for_receipt] returns is truthy, never
    [None]; it is the answer of a poll within the [wait_for // 3] rounds,
    after polls that all found nothing and a pause of three seconds after
    each of these. *)
Theorem wait_for_receipt_sound (ext : Externals) (network : string) (tx_id : pyval)
    (wait_for : Z) (w w' : World) (v : pyval) :
  wait_for_receipt ext network tx_id wait_for w = (Ok v, w') ->
  truthy v = true
  /\ exists k, (k < Z.to_nat (wait_for / 3))%nat
       /\ w' = after_polls (receipt_request ext network tx_id) (S k) k w
       /\ answers w (receipt_request ext network tx_id) k v
       /\ forall i, (i < k)%nat ->
            exists u, answers w (receipt_request ext network tx_id) i u /\ truthy u = false.
Proof.
  unfold wait_for_receipt. intros H.
  apply bind_inv_ok in H as (r & w1 & Hloop & H).
  destruct (truthy r) eqn:Hr; cbn [negb] in H; [| discriminate H].
  injection H as -> ->. split; [exact Hr |].
  apply wait_loop_inv in Hloop as [(k & u & Hk & [= <-] & _ & -> & Hat & Hbefore)
                                  | [(u & [= <-] & Hu & _) | (k & e & _ & [=] & _)]].
  - exists k. auto.
  - rewrite Hu in Hr by reflexivity. discriminate Hr.
Qed.

Lemma wait_for_receipt_sound_witness :
  truthy (Scenario.created "0xA") = true
  /\ exists k, (k < Z.to_nat (20 / 3))%nat
       /\ after_polls (GET Scenario.receipt_url) 3 2
            (Scenario.world VNone [VNone; VNone; Scenario.created "0xA"])
          = after_polls (receipt_request Scenario.ext "http://node" (VStr "0x7a")) (S k) k
              (Scenario.world VNone [VNone; VNone; Scenario.created "0xA"])
       /\ answers (Scenario.world VNone [VNone; VNone; Scenario.created "0xA"])
            (receipt_request Scenario.ext "http://node" (VStr "0x7a")) k (Scenario.created "0xA")
       /\ forall i, (i < k)%nat ->
            exists u, answers (Scenario.world VNone [VNone; VNone; Scenario.created "0xA"])
                        (receipt_request Scenario.ext "http://node" (VStr "0x7a")) i u
                      /\ truthy u = false.
Proof.
  apply (wait_for_receipt_sound Scenario.ext "http://node" (VStr "0x7a") 20
           (Scenario.world VNone [VNone; VNone; Scenario.created "0xA"])).
  vm_compute. reflexivity.
Defined.

(** X12: whatever the node answers and however the call ends,
    [wait_for_receipt] sends nothing but receipt requests, at most
    [wait_for // 3] of them, and pauses at most once per request, three
    seconds each: never longer than the window. *)
Theorem wait_for_receipt_bounded (ext : Externals) (network : string) (tx_id : pyval)
    (wait_for : Z) (w w' : World) (r : result pyval) :
  wait_for_receipt ext network tx_id wait_for w = (r, w') ->
  exists polls sleeps,
    w' = after_polls (receipt_request ext network tx_id) polls sleeps w
    /\ (sleeps <= polls <= Z.to_nat (wait_for / 3))%nat
    /\ (0 <= wait_for -> slept w' - slept w <= wait_for).
Proof.
  unfold wait_for_receipt. intros H.
  assert (B : forall polls sleeps,
             (sleeps <= polls <= Z.to_nat (wait_for / 3))%nat ->
             0 <= wait_for ->
             slept (after_polls (receipt_request ext network tx_id) polls sleeps w) - slept w
             <= wait_for).
  { intros polls sleeps Hb Hw. unfold after_polls. cbn [slept].
    pose proof (Z.mul_div_le wait_for 3 ltac:(lia)).
    pose proof (Z.div_pos wait_for 3 Hw ltac:(lia)).
    assert (Z.of_nat sleeps <= wait_for / 3) by lia. lia. }
  apply bind_inv in H as [(e & Hloop & ->) | (v & w1 & Hloop & H)].
  - apply wait_loop_inv in Hloop as [(k & u & _ & [=] & _)
                                    | [(u & [=] & _) | (k & e' & Hk & _ & ->)]].
    exists (S k), k. split; [reflexivity |]. split; [lia |]. apply B. lia.
  - assert (w' = w1) as ->.
    { destruct (negb (truthy v)); now injection H as _ <-. }
    apply wait_loop_inv in Hloop as [(k & u & Hk & _ & _ & -> & _)
                                    | [(u & _ & _ & ->) | (k & e' & Hk & _ & ->)]].
    + exists (S k), k. split; [reflexivity |]. split; [lia |]. apply B. lia.
    + exists (Z.to_nat (wait_for / 3)), (Z.to_nat (wait_for / 3)).
      split; [reflexivity |]. split; [lia |]. apply B. lia.
    + exists (S k), k. split; [reflexivity |]. split; [lia |]. apply B. lia.
Qed.

Lemma wait_for_receipt_bounded_witness :
  exists polls sleeps,
    snd (wait_for_receipt Scenario.ext "http://node" (VStr "0x7a") 20
           (Scenario.world VNone [VNone; Scenario.created "0xA"]))
    = after_polls (receipt_request Scenario.ext "http://node" (VStr "0x7a")) polls sleeps
        (Scenario.world VNone [VNone; Scenario.created "0xA"])
    /\ (sleeps <= polls <= Z.to_nat (20 / 3))%nat
    /\ (0 <= 20 ->
        slept (snd (wait_for_receipt Scenario.ext "http://node" (VStr "0x7a") 20
                      (Scenario.world VNone [VNone; Scenario.created "0xA"])))
        - slept (Scenario.world VNone [VNone; Scenario.created "0xA"]) <= 20).
Proof.
  apply (wait_for_receipt_bounded Scenario.ext "http://node" (VStr "0x7a") 20
           (Scenario.world VNone [VNone; Scenario.created "0xA"])
           _ (Ok (Scenario.created "0xA"))).
  vm_compute. reflexivity.
Defined.

(** A poll that the node answers with another status than 200. *)
Lemma tx_receipt_refused ext network tx_id w resp :
  node w (receipt_request ext network tx_id :: sent w) = Ok resp ->
  status_code resp <> 200 ->
  tx_receipt ext network tx_id w
  = (Raise (Exception ("Creation error? HTTP: " ++ decimal (status_code resp) ++ " " ++ text resp)),
     after_polls (receipt_request ext network tx_id) 1 0 w).
Proof.
  intros Hnode Hs. unfold tx_receipt, receipt_request in *.
  unfold mbind, M_bind, http. cbn [node sent]. rewrite Hnode.
  apply Z.eqb_neq in Hs. rewrite Hs. cbn [negb]. unfold raise, after_polls. simpl.
  do 2 f_equal. lia.
Qed.

(** X13: a poll answered with a status other than 200 ends the wait at
    once: after [k] polls that found nothing, the exception carries the
    status and the text of the answer, and no further request is sent. *)
Theorem wait_for_receipt_transport_error (ext : Externals) (network : string) (tx_id : pyval)
    (wait_for : Z) (w : World) (k : nat) (resp : Response) :
  (k < Z.to_nat (wait_for / 3))%nat ->
  (forall i, (i < k)%nat ->
     exists v, answers w (receipt_request ext network tx_id) i v /\ truthy v = false) ->
  node w (repeat (receipt_request ext network tx_id) (S k) ++ sent w) = Ok resp ->
  status_code resp <> 200 ->
  wait_for_receipt ext network tx_id wait_for w
  = (Raise (Exception ("Creation error? HTTP: " ++ decimal (status_code resp) ++ " " ++ text resp)),
     after_polls (receipt_request ext network tx_id) (S k) k w).
Proof.
  set (q := receipt_request ext network tx_id).
  intros Hk Hbefore Hnode Hs. unfold wait_for_receipt.
  apply bind_raise. fold q.
  generalize dependent w. generalize VNone as r0.
  generalize dependent k.
  induction (Z.to_nat (wait_for / 3)) as [| n IH]; intros k Hk r0 w Hbefore Hnode; [lia |].
  cbn [wait_loop]. destruct k as [| k].
  - apply bind_raise. now apply tx_receipt_refused.
  - destruct (Hbefore 0%nat ltac:(lia)) as (v & Hv & Hfalse).
    rewrite (bind_ok _ _ _ _ _ (tx_receipt_answered _ _ _ _ _ Hv)). rewrite Hfalse. fold q.
    assert (Hsleep : sleep 3 (after_polls q 1 0 w) = (Ok tt, after_polls q 1 1 w)).
    { unfold sleep, after_polls. simpl. do 2 f_equal. lia. }
    rewrite (bind_ok _ _ _ _ _ Hsleep).
    rewrite (IH k ltac:(lia) v (after_polls q 1 1 w)).
    + now rewrite after_polls_shift.
    + intros i Hi. destruct (Hbefore (S i) ltac:(lia)) as (v' & Hv' & Hf').
      exists v'. split; [now apply answers_shift | exact Hf'].
    + unfold after_polls. cbn [node sent].
      change (repeat q 1 ++ sent w)%list with (q :: sent w).
      now rewrite repeat_snoc_cons.
Qed.

Lemma wait_for_receipt_transport_error_witness :
  wait_for_receipt Scenario.ext "http://node" (VStr "0x7a") 20
    (Scenario.out_of_service 503 "busy")
  = (Raise (Exception "Creation error? HTTP: 503 busy"),
     after_polls (GET Scenario.receipt_url) 1 0 (Scenario.out_of_service 503 "busy")).
Proof.
  apply (wait_for_receipt_transport_error Scenario.ext "http://node" (VStr "0x7a") 20
           (Scenario.out_of_service 503 "busy") 0
           {| status_code := 503; text := "busy"; json := Raise ValueError |}).
  - vm_compute. lia.
  - intros i Hi. lia.
  - reflexivity.
  - discriminate.
Defined.

(** ** How many transactions a run submits *)

Lemma on_success_quiet {A} (m : M A) : quiet m -> submits_on_success 0 m.
Proof. intros Hm w a w' H. rewrite (Hm _ _ _ H). lia. Qed.

Lemma on_success_bind {A B} (a b : nat) (m : M A) (k : A -> M B) :
  submits_on_success a m -> (forall x, submits_on_success b (k x)) ->
  submits_on_success (a + b) (m ≫= k).
Proof.
  intros Hm Hk w y w' H. apply bind_inv_ok in H as (x & w1 & H1 & H2).
  rewrite (Hk _ _ _ _ H2), (Hm _ _ _ H1). lia.
Qed.

Lemma on_success_post_tx network raw : submits_on_success 1 (post_tx network raw).
Proof.
  unfold post_tx. apply (on_success_bind 1 0).
  - intros w a w' [= _ <-]. unfold submissions. simpl. lia.
  - intros r. apply on_success_quiet. quiet_steps.
Qed.

Lemma quiet_deploy_result ext receipt : quiet (deploy_result ext receipt).
Proof. unfold deploy_result. quiet_steps. Qed.

Lemma on_success_deploy ext network chainTag0 contract_meta types params priv to0 value0 gas0 :
  submits_on_success 1
    (deploy ext network chainTag0 contract_meta types params priv to0 value0 gas0).
Proof.
  unfold deploy. apply (on_success_bind 1 0); [| intros; apply on_success_quiet, quiet_deploy_result].
  unfold deploy_submit.
  do 3 (apply (on_success_bind 0 1); [apply on_success_quiet; auto with quiet | intros ?]).
  apply (on_success_bind 0 1); [apply on_success_quiet, quiet_build_tx | intros raw].
  apply (on_success_bind 1 0); [apply on_success_post_tx | intros tx_id].
  apply on_success_quiet.
  pose proof (quiet_wait_for_receipt ext network tx_id). quiet_steps.
Qed.

Lemma on_success_call_function ext network chainTag0 abi_dict func_params priv to0 value0 gas0 :
  submits_on_success 1
    (call_function ext network chainTag0 abi_dict func_params priv to0 value0 gas0).
Proof.
  unfold call_function. apply (on_success_bind 1 0).
  - unfold call_submit.
    do 6 (apply (on_success_bind 0 1); [apply on_success_quiet; auto with quiet | intros ?]).
    apply (on_success_bind 0 1); [apply on_success_quiet, quiet_build_tx | intros raw].
    apply (on_success_bind 1 0); [apply on_success_post_tx | intros tx_id].
    apply on_success_quiet.
    pose proof (quiet_wait_for_receipt ext network tx_id). quiet_steps.
  - intros [tx_id receipt]. apply on_success_quiet. unfold call_result. quiet_steps.
Qed.

(** X14: a call of [deploy] that returns an address has submitted exactly
    one transaction, and any call at most one. *)
Theorem deploy_submits_exactly_once (ext : Externals) (network : string) (chainTag0 : Z)
    (contract_meta types params : pyval) (priv : string) (to0 : pyval) (value0 gas0 : Z)
    (w w' : World) (r : result pyval) :
  deploy ext network chainTag0 contract_meta types params priv to0 value0 gas0 w = (r, w') ->
  (submissions w' <= submissions w + 1)%nat
  /\ (forall a, r = Ok a -> submissions w' = (submissions w + 1)%nat).
Proof.
  intros H. split.
  - exact (once_deploy _ _ _ _ _ _ _ _ _ _ _ _ _ H).
  - intros a ->. exact (on_success_deploy _ _ _ _ _ _ _ _ _ _ _ _ _ H).
Qed.

Lemma deploy_submits_exactly_once_witness :
  (submissions (snd (deploy Scenario.ext "http://node" 164 Scenario.artifact VNone VNone "00"
                       VNone 0 3000000 (Scenario.world VNone [VNone; Scenario.created "0xA"])))
   <= submissions (Scenario.world VNone [VNone; Scenario.created "0xA"]) + 1)%nat
  /\ (forall a, Ok (VStr "0xA") = Ok a ->
        submissions (snd (deploy Scenario.ext "http://node" 164 Scenario.artifact VNone VNone "00"
                            VNone 0 3000000 (Scenario.world VNone [VNone; Scenario.created "0xA"])))
        = (submissions (Scenario.world VNone [VNone; Scenario.created "0xA"]) + 1)%nat).
Proof.
  apply (deploy_submits_exactly_once Scenario.ext "http://node" 164 Scenario.artifact VNone VNone
           "00" VNone 0 3000000 (Scenario.world VNone [VNone; Scenario.created "0xA"])).
  vm_compute. reflexivity.
Defined.

Lemma quiet_get_account NETWORK account_id block : quiet (get_account NETWORK account_id block).
Proof. unfold get_account. quiet_steps. Qed.

Lemma quiet_preflight ext NETWORK address : quiet (preflight ext NETWORK address).
Proof.
  unfold preflight. pose proof (quiet_get_account NETWORK address "best"). quiet_steps.
Qed.

Lemma on_success_steps ext NETWORK CHAIN_TAG private address :
  submits_on_success 4 (steps ext NETWORK CHAIN_TAG private address).
Proof.
  unfold steps.
  apply (on_success_bind 1 3).
  { unfold step_vvet.
    do 2 (apply (on_success_bind 0 1); [apply on_success_quiet; auto with quiet | intros ?]).
    apply on_success_deploy. }
  intros a. apply (on_success_bind 1 2).
  { unfold step_factory.
    do 2 (apply (on_success_bind 0 1); [apply on_success_quiet; auto with quiet | intros ?]).
    apply (on_success_bind 1 0); [apply on_success_deploy |].
    intros; apply on_success_quiet, quiet_ret. }
  intros [f b]. apply (on_success_bind 1 1).
  { unfold step_router.
    do 2 (apply (on_success_bind 0 1); [apply on_success_quiet; auto with quiet | intros ?]).
    apply on_success_deploy. }
  intros c. apply (on_success_bind 1 0).
  { unfold step_pair.
    do 2 (apply (on_success_bind 0 1); [apply on_success_quiet; auto with quiet | intros ?]).
    apply on_success_call_function. }
  intros; apply on_success_quiet, quiet_ret.
Qed.

Lemma steps_at_most_four ext NETWORK CHAIN_TAG private address w r w' :
  steps ext NETWORK CHAIN_TAG private address w = (r, w') ->
  (submissions w' <= submissions w + 4)%nat.
Proof.
  intros H. destruct r as [[] | e].
  - rewrite (on_success_steps _ _ _ _ _ _ _ _ H). lia.
  - apply steps_failure_cases in H
      as [H1 | (a & w1 & H1 & [H2 | (f & b & w2 & H2 & [H3 | (c & w3 & H3 & H4)])])].
    + apply once_step_vvet in H1. lia.
    + apply once_step_vvet in H1. apply once_step_factory in H2. lia.
    + apply once_step_vvet in H1. apply once_step_factory in H2.
      apply once_step_router in H3. lia.
    + apply once_step_vvet in H1. apply once_step_factory in H2.
      apply once_step_router in H3. apply once_step_pair in H4. lia.
Qed.

(** X15: a run of the script submits at most four transactions, and one
    that ends without an exception exactly four. *)
Theorem main_submissions (ext : Externals) (argv : list string) (w w' : World)
    (r : result unit) :
  main ext argv w = (r, w') ->
  (submissions w' <= submissions w + 4)%nat
  /\ (r = Ok tt -> submissions w' = (submissions w + 4)%nat).
Proof.
  unfold main. intros H.
  apply bind_inv in H as [(e & H & ->) | (private & wa & Ha & H)];
    [apply quiet_lift in H; split; [lia | discriminate] | apply quiet_lift in Ha].
  apply bind_inv in H as [(e & H & ->) | (address & wb & Hb & H)];
    [apply quiet_lift in H; split; [lia | discriminate] | apply quiet_lift in Hb].
  apply bind_inv in H as [(e & H & ->) | (NETWORK & wc & Hc & H)];
    [apply quiet_lift in H; split; [lia | discriminate] | apply quiet_lift in Hc].
  apply bind_inv in H as [(e & H & ->) | (CHAIN_TAG & wd & Hd & H)];
    [apply quiet_lift in H; split; [lia | discriminate] | apply quiet_lift in Hd].
  apply bind_inv in H as [(e & H & ->) | ([] & w1 & Hp & H)].
  - apply quiet_preflight in H. split; [lia | discriminate].
  - apply quiet_preflight in Hp. split.
    + apply steps_at_most_four in H. lia.
    + intros ->. apply on_success_steps in H. lia.
Qed.

Lemma main_submissions_witness :
  (submissions (snd (main Scenario.ext Scenario.argv
                       (Scenario.world (Scenario.account "0x2f6fee83785d4240000" false)
                          [Scenario.created "0xA"; Scenario.created "0xB";
                           Scenario.created "0xC"; Scenario.created "0xD"])))
   <= submissions (Scenario.world (Scenario.account "0x2f6fee83785d4240000" false)
                     [Scenario.created "0xA"; Scenario.created "0xB";
                      Scenario.created "0xC"; Scenario.created "0xD"]) + 4)%nat
  /\ (Ok tt = Ok tt ->
      submissions (snd (main Scenario.ext Scenario.argv
                          (Scenario.world (Scenario.account "0x2f6fee83785d4240000" false)
                             [Scenario.created "0xA"; Scenario.created "0xB";
                              Scenario.created "0xC"; Scenario.created "0xD"])))
      = (submissions (Scenario.world (Scenario.account "0x2f6fee83785d4240000" false)
                        [Scenario.created "0xA"; Scenario.created "0xB";
                         Scenario.created "0xC"; Scenario.created "0xD"]) + 4)%nat).
Proof.
  apply (main_submissions Scenario.ext Scenario.argv
           (Scenario.world (Scenario.account "0x2f6fee83785d4240000" false)
              [Scenario.created "0xA"; Scenario.created "0xB";
               Scenario.created "0xC"; Scenario.created "0xD"])).
  vm_compute. reflexivity.
Defined.

(** ** The pre-flight check, in general *)

(** X16: once the account is fetched, the outcome of the pre-flight check
    is decided by two tests in this order: the energy in display units must
    be greater than 14000, else [AssertionError('Insufficient VTHO')]; then
    [hasCode] must be falsy, else the other [AssertionError]. Either way
    the check has sent the one account request and nothing else. *)
Theorem preflight_decision (ext : Externals) (NETWORK address : string) (w : World)
    (resp : Response) (acc : gmap string pyval) (balance energy : string) (nb ne : Z)
    (qb qe : spec_float) (hasCode : pyval) :
  node w (GET (_build_url NETWORK ("/accounts/" ++ address ++ "?revision=best")) :: sent w)
  = Ok resp ->
  status_code resp = 200 ->
  json resp = Ok (VDict acc) ->
  acc !! "balance" = Some (VStr balance) ->
  int16 balance = Ok nb ->
  int_truediv nb (10 ^ 18) = Ok qb ->
  acc !! "energy" = Some (VStr energy) ->
  int16 energy = Ok ne ->
  int_truediv ne (10 ^ 18) = Ok qe ->
  acc !! "hasCode" = Some hasCode ->
  exists w',
    preflight ext NETWORK address w
    = (if float_gt_int qe 14000
       then if truthy hasCode
            then Raise (AssertionError "Only EOA accouts can deploy this")
            else Ok tt
       else Raise (AssertionError "Insufficient VTHO"),
       w')
    /\ sent w'
       = GET (_build_url NETWORK ("/accounts/" ++ address ++ "?revision=best")) :: sent w.
Proof.
  intros Hnode Hstatus Hjson Hbal Hnb Hqb Hen Hne Hqe Hcode.
  pose proof (display_units acc _ _ _ _ Hbal Hnb Hqb) as Dbal.
  pose proof (display_units acc _ _ _ _ Hen Hne Hqe) as Den.
  unfold preflight.
  erewrite bind_ok by reflexivity.
  erewrite bind_ok
    by (apply (get_account_answered _ _ _ _ resp); [exact Hnode | exact Hstatus | exact Hjson]).
  rewrite Dbal, Den. unfold getitem. rewrite Hcode.
  do 7 (erewrite bind_ok by reflexivity; cbv beta;
        cbn [node sent rng drawn files slept stdout]).
  destruct (float_gt_int qe 14000).
  - do 2 (erewrite bind_ok by reflexivity; cbv beta;
          cbn [node sent rng drawn files slept stdout]).
    destruct (truthy hasCode); eexists; split; reflexivity.
  - erewrite bind_raise by reflexivity. eexists; split; reflexivity.
Qed.

Lemma preflight_decision_witness :
  exists w',
    preflight Scenario.ext "http://node" "0x00"
      (Scenario.world (Scenario.account "0x2f6fee83785d4240000" true) [])
    = (if float_gt_int (S754_finite false 7697131150245888 (-39)) 14000
       then if truthy (VBool true)
            then Raise (AssertionError "Only EOA accouts can deploy this")
            else Ok tt
       else Raise (AssertionError "Insufficient VTHO"),
       w')
    /\ sent w'
       = GET (_build_url "http://node" ("/accounts/" ++ "0x00" ++ "?revision=best"))
           :: sent (Scenario.world (Scenario.account "0x2f6fee83785d4240000" true) []).
Proof.
  refine (preflight_decision Scenario.ext "http://node" "0x00" _
            {| status_code := 200; text := "";
               json := Ok (Scenario.account "0x2f6fee83785d4240000" true) |}
            {[ "balance" := VStr "0x0"; "energy" := VStr "0x2f6fee83785d4240000";
               "hasCode" := VBool true ]}
            "0x0" "0x2f6fee83785d4240000" 0 (14001 * 10 ^ 18) (S754_zero false)
            (S754_finite false 7697131150245888 (-39)) (VBool true)
            _ _ _ _ _ _ _ _ _ _);
    vm_compute; reflexivity.
Defined.

(** ** The main block *)

(** X17: with fewer than the three arguments after the script's name, the
    script fails before it prints or sends anything. *)
Theorem main_missing_arguments (ext : Externals) (argv : list string) (w : World) :
  (length argv < 4)%nat ->
  exists e, main ext argv w = (Raise e, w)
            /\ ((length argv < 2)%nat -> e = IndexError).
Proof.
  intros Hlen. unfold main.
  destruct argv as [| a0 [| a1 rest]].
  - exists IndexError. split; reflexivity.
  - exists IndexError. split; reflexivity.
  - erewrite bind_ok by reflexivity. cbv beta.
    destruct (bytes_fromhex a1 ≫= fun priv => _calc_address ext priv) as [address | e] eqn:Ha.
    + erewrite bind_ok by reflexivity. cbv beta.
      destruct rest as [| a2 [| a3 rest]].
      * exists IndexError. split; [reflexivity | simpl; lia].
      * erewrite bind_ok by reflexivity. exists IndexError. split; [reflexivity | simpl; lia].
      * simpl in Hlen. lia.
    + exists e. split; [| simpl; lia].
      erewrite bind_raise by reflexivity. reflexivity.
Qed.

Lemma main_missing_arguments_witness :
  exists e, main Scenario.ext ["deploy.py"; "00"; "http://node"] (Scenario.world VNone [])
            = (Raise e, Scenario.world VNone [])
            /\ ((length ["deploy.py"; "00"; "http://node"] < 2)%nat -> e = IndexError).
Proof.
  apply (main_missing_arguments Scenario.ext ["deploy.py"; "00"; "http://node"]). simpl. lia.
Defined.

(** X18: when the factory artifact has no descriptor named [createPair],
    the last step raises its own exception before any transaction is built:
    the world is untouched. *)
Theorem step_pair_missing_abi (ext : Externals) (NETWORK : string) (CHAIN_TAG : Z)
    (private : string) (factory : gmap string pyval) (abis : list pyval)
    (factory_contract_addr vvet_contract_addr : pyval) (w : World) :
  factory !! "abi" = Some (VList abis) ->
  Forall is_dict abis ->
  Forall (fun x => ~ named "createPair" x) abis ->
  step_pair ext NETWORK CHAIN_TAG private (VDict factory) factory_contract_addr
    vvet_contract_addr w
  = (Raise (Exception "Cannot find createPair abi"), w).
Proof.
  intros Habi Hd Hn. unfold step_pair.
  assert (F : find_func_abi (VDict factory) "createPair" = Ok VNone).
  { unfold find_func_abi. cbn [getitem]. rewrite Habi, result_bind_ok. cbn [py_iter].
    rewrite result_bind_ok, <- (app_nil_r abis), find_func_loop_skip by assumption.
    reflexivity. }
  rewrite F. reflexivity.
Qed.

Lemma step_pair_missing_abi_witness :
  step_pair Scenario.ext "http://node" 164 "00"
    (VDict {[ "abi" := VList [ VDict {[ "name" := VStr "feeTo" ]} ] ]})
    (VStr "0xB") (VStr "0xA") (Scenario.world VNone [])
  = (Raise (Exception "Cannot find createPair abi"), Scenario.world VNone []).
Proof.
  refine (step_pair_missing_abi Scenario.ext "http://node" 164 "00" _
            [ VDict {[ "name" := VStr "feeTo" ]} ] (VStr "0xB") (VStr "0xA") _ _ _ _).
  - vm_compute. reflexivity.
  - repeat constructor; eexists; reflexivity.
  - repeat constructor. intros (d & [= <-] & H). vm_compute in H. discriminate H.
Defined.

(** ** Failures before and at the submission *)

(** X19: an artifact that [deploy] cannot read makes it fail before any
    request: without [contractName] in an untouched world, and with a
    payload that cannot be built after the first printed line only. *)
Theorem deploy_malformed_artifact (ext : Externals) (network : string) (chainTag0 : Z)
    (contract_meta types params : pyval) (priv : string) (to0 : pyval) (value0 gas0 : Z)
    (w : World) (e : exn) :
  (getitem contract_meta "contractName" = Raise e ->
     deploy ext network chainTag0 contract_meta types params priv to0 value0 gas0 w
     = (Raise e, w))
  /\ (forall name,
        getitem contract_meta "contractName" = Ok name ->
        deploy_payload ext contract_meta types params = Raise e ->
        exists w',
          deploy ext network chainTag0 contract_meta types params priv to0 value0 gas0 w
          = (Raise e, w')
          /\ sent w' = sent w /\ drawn w' = drawn w
          /\ stdout w' = ("Deploy contract: <" ++ py_str ext name ++ ">") :: stdout w).
Proof.
  unfold deploy, deploy_submit. split.
  - intros Hname. rewrite Hname. reflexivity.
  - intros name Hname Hpay. rewrite Hname, Hpay. eexists. split; [reflexivity |].
    repeat split.
Qed.

Lemma deploy_malformed_artifact_witness :
  exists w',
    deploy Scenario.ext "http://node" 164
      (VDict {[ "contractName" := VStr "C"; "bytecode" := VStr "6g" ]}) VNone VNone "00" VNone
      0 3000000 (Scenario.world VNone [])
    = (Raise ValueError, w')
    /\ sent w' = sent (Scenario.world VNone [])
    /\ drawn w' = drawn (Scenario.world VNone [])
    /\ stdout w' = ("Deploy contract: <" ++ py_str Scenario.ext (VStr "C") ++ ">")
                     :: stdout (Scenario.world VNone []).
Proof.
  refine (proj2 (deploy_malformed_artifact Scenario.ext "http://node" 164
                   (VDict {[ "contractName" := VStr "C"; "bytecode" := VStr "6g" ]}) VNone VNone
                   "00" VNone 0 3000000 (Scenario.world VNone []) ValueError)
            (VStr "C") _ _);
    vm_compute; reflexivity.
Defined.

(** X20: when the node refuses the head block, or answers a block without
    an id, [build_tx] fails after that single request: no nonce is drawn
    and nothing is signed. The exception names the URL and carries the
    node's text, or is the [KeyError] of the missing id. *)
Theorem build_tx_without_block (ext : Externals) (priv network : string) (chainTag0 : Z)
    (to0 : pyval) (value0 : Z) (data0 : string) (gas0 : Z) (dependsOn0 : pyval)
    (w : World) (resp : Response) :
  node w (GET (_build_url network "blocks/best") :: sent w) = Ok resp ->
  exists w',
    snd (build_tx ext priv network chainTag0 to0 value0 data0 gas0 dependsOn0 w) = w'
    /\ sent w' = GET (_build_url network "blocks/best") :: sent w
    /\ (status_code resp <> 200 ->
        fst (build_tx ext priv network chainTag0 to0 value0 data0 gas0 dependsOn0 w)
        = Raise (Exception ("Cant connect to " ++ _build_url network "blocks/best"
                            ++ ", error " ++ text resp))
        /\ drawn w' = drawn w)
    /\ (forall block : gmap string pyval,
          status_code resp = 200 -> json resp = Ok (VDict block) -> block !! "id" = None ->
          fst (build_tx ext priv network chainTag0 to0 value0 data0 gas0 dependsOn0 w)
          = Raise (KeyError "id")
          /\ drawn w' = drawn w).
Proof.
  intros Hnode. eexists. split; [reflexivity |].
  unfold build_tx, build_tx_body, best_block, get_block, mbind, M_bind, http.
  change ("blocks/" ++ "best") with "blocks/best".
  cbn [node sent]. rewrite Hnode.
  destruct (status_code resp =? 200)%Z eqn:Hs; cbn [negb].
  - unfold lift. destruct (json resp) as [j | e] eqn:Hj.
    + split.
      { destruct (_calc_blockRef j); [| reflexivity].
        unfold _calc_nonce, mbind, M_bind, token_hex, lift.
        destruct (int16 _); reflexivity. }
      split; [intros Hne; apply Z.eqb_eq in Hs; contradiction |].
      intros block _ [= ->] Hid. unfold _calc_blockRef. cbn [getitem]. rewrite Hid.
      split; reflexivity.
    + split; [reflexivity |]. split; [intros Hne; apply Z.eqb_eq in Hs; contradiction |].
      intros block _ [=].
  - unfold raise. split; [reflexivity |]. split; [intros _; split; reflexivity |].
    intros block H200. apply Z.eqb_neq in Hs. contradiction.
Qed.

Lemma build_tx_without_block_witness :
  exists w',
    snd (build_tx Scenario.ext "00" "http://node" 164 VNone 0 "0x6080" 3000000 VNone
           (Scenario.out_of_service 404 "no block")) = w'
    /\ sent w' = GET (_build_url "http://node" "blocks/best")
                   :: sent (Scenario.out_of_service 404 "no block")
    /\ fst (build_tx Scenario.ext "00" "http://node" 164 VNone 0 "0x6080" 3000000 VNone
              (Scenario.out_of_service 404 "no block"))
       = Raise (Exception "Cant connect to http://node/blocks/best, error no block")
    /\ drawn w' = drawn (Scenario.out_of_service 404 "no block").
Proof.
  destruct (build_tx_without_block Scenario.ext "00" "http://node" 164 VNone 0 "0x6080" 3000000
              VNone (Scenario.out_of_service 404 "no block")
              {| status_code := 404; text := "no block"; json := Raise ValueError |} eq_refl)
    as (w' & Hw & Hsent & Hrefused & _).
  exists w'. split; [exact Hw |]. split; [exact Hsent |].
  apply Hrefused. discriminate.
Defined.

(** X21: [post_tx] sends the transaction once, whatever the answer: a
    status other than 200 raises an exception that carries the status and
    the text, a JSON object with an [id] gives that id, one without it a
    [KeyError]; in each case the request has gone out and is not
    repeated. *)
Theorem post_tx_outcomes (network raw : string) (w : World) (resp : Response) :
  node w (POST (_build_url network "transactions") (VDict {[ "raw" := VStr raw ]}) :: sent w)
  = Ok resp ->
  exists w',
    snd (post_tx network raw w) = w'
    /\ sent w' = POST (_build_url network "transactions") (VDict {[ "raw" := VStr raw ]}) :: sent w
    /\ submissions w' = (submissions w + 1)%nat
    /\ (status_code resp <> 200 ->
        fst (post_tx network raw w)
        = Raise (Exception ("Creation error? HTTP: " ++ decimal (status_code resp)
                            ++ " " ++ text resp)))
    /\ (forall j : gmap string pyval,
          status_code resp = 200 -> json resp = Ok (VDict j) ->
          fst (post_tx network raw w)
          = match j !! "id" with
            | Some id => Ok id
            | None => Raise (KeyError "id")
            end).
Proof.
  intros Hnode. eexists. split; [reflexivity |].
  unfold post_tx, mbind, M_bind, http. cbn [node sent]. rewrite Hnode.
  destruct (status_code resp =? 200)%Z eqn:Hs; cbn [negb].
  - unfold lift. destruct (json resp) as [j | e] eqn:Hj; cbn [snd fst sent].
    + split; [reflexivity |]. split; [unfold submissions; simpl; lia |].
      split; [intros Hne; apply Z.eqb_eq in Hs; contradiction |].
      intros j' _ [= ->]. cbn [getitem]. now destruct (j' !! "id").
    + split; [reflexivity |]. split; [unfold submissions; simpl; lia |].
      split; [intros Hne; apply Z.eqb_eq in Hs; contradiction |].
      intros j' _ [=].
  - unfold raise. cbn [snd fst sent]. split; [reflexivity |].
    split; [unfold submissions; simpl; lia |]. split; [reflexivity |].
    intros j H200. apply Z.eqb_neq in Hs. contradiction.
Qed.

Lemma post_tx_outcomes_witness :
  exists w',
    snd (post_tx "http://node" "0x01" (Scenario.out_of_service 403 "insufficient energy")) = w'
    /\ submissions w' = (submissions (Scenario.out_of_service 403 "insufficient energy") + 1)%nat
    /\ fst (post_tx "http://node" "0x01" (Scenario.out_of_service 403 "insufficient energy"))
       = Raise (Exception "Creation error? HTTP: 403 insufficient energy").
Proof.
  destruct (post_tx_outcomes "http://node" "0x01"
              (Scenario.out_of_service 403 "insufficient energy")
              {| status_code := 403; text := "insufficient energy"; json := Raise ValueError |}
              eq_refl)
    as (w' & Hw & _ & Hsub & Hrefused & _).
  exists w'. split; [exact Hw |]. split; [exact Hsub |]. apply Hrefused. discriminate.
Defined.

(** ** The random source *)

Lemma keeps_ret {A} (a : A) : keeps_rng (mret a).
Proof. intros w r w' [= _ <-]. auto. Qed.

Lemma keeps_raise {A} (e : exn) : keeps_rng (@raise A e).
Proof. intros w r w' [= _ <-]. auto. Qed.

Lemma keeps_lift {A} (x : result A) : keeps_rng (lift x).
Proof. intros w r w' [= _ <-]. auto. Qed.

Lemma keeps_print line : keeps_rng (print line).
Proof. intros w r w' [= _ <-]. auto. Qed.

Lemma keeps_sleep s : keeps_rng (sleep s).
Proof. intros w r w' [= _ <-]. auto. Qed.

Lemma keeps_read_json_file path : keeps_rng (read_json_file path).
Proof. intros w r w' [= _ <-]. auto. Qed.

Lemma keeps_http q : keeps_rng (http q).
Proof. intros w r w' [= _ <-]. auto. Qed.

Lemma keeps_bind {A B} (m : M A) (k : A -> M B) :
  keeps_rng m -> (forall a, keeps_rng (k a)) -> keeps_rng (m ≫= k).
Proof.
  intros Hm Hk w r w' H. apply bind_inv in H as [(e & H & _) | (a & w1 & H1 & H2)].
  - exact (Hm _ _ _ H).
  - destruct (Hm _ _ _ H1) as [<- <-]. exact (Hk _ _ _ _ H2).
Qed.

Lemma keeps_if {A} (b : bool) (m1 m2 : M A) :
  keeps_rng m1 -> keeps_rng m2 -> keeps_rng (if b then m1 else m2).
Proof. now destruct b. Qed.

Create HintDb keeps.

#[local] Hint Resolve keeps_ret keeps_raise keeps_lift keeps_print keeps_sleep
  keeps_read_json_file keeps_http keeps_if : keeps.

(** Discharges [keeps_rng] for a sequence of commands that keep it. *)
Ltac keeps_steps :=
  repeat first
    [ apply keeps_bind; [| intros ?]
    | apply keeps_if
    | solve [auto with keeps] ].

Lemma keeps_post_tx network raw : keeps_rng (post_tx network raw).
Proof. unfold post_tx. keeps_steps. Qed.

Lemma keeps_tx_receipt ext network tx_id : keeps_rng (tx_receipt ext network tx_id).
Proof. unfold tx_receipt. keeps_steps. Qed.

Lemma keeps_wait_for_receipt ext network tx_id wait_for :
  keeps_rng (wait_for_receipt ext network tx_id wait_for).
Proof.
  unfold wait_for_receipt.
  assert (L : forall n r0, keeps_rng (wait_loop ext network tx_id n r0)).
  { induction n as [| n IH]; intros r0; cbn [wait_loop]; [apply keeps_ret |].
    pose proof (keeps_tx_receipt ext network tx_id). keeps_steps. }
  keeps_steps.
Qed.

Lemma keeps_preflight ext NETWORK address : keeps_rng (preflight ext NETWORK address).
Proof. unfold preflight, get_account. keeps_steps. Qed.

Lemma draws_keeps {A} (m : M A) : keeps_rng m -> draws_on_success 0 m.
Proof. intros Hm w a w' H. destruct (Hm _ _ _ H) as [-> ->]. split; [reflexivity | lia]. Qed.

Lemma draws_bind {A B} (a b : nat) (m : M A) (k : A -> M B) :
  draws_on_success a m -> (forall x, draws_on_success b (k x)) ->
  draws_on_success (a + b) (m ≫= k).
Proof.
  intros Hm Hk w y w' H. apply bind_inv_ok in H as (x & w1 & H1 & H2).
  destruct (Hm _ _ _ H1) as [E1 D1]. destruct (Hk _ _ _ _ H2) as [E2 D2].
  split; [congruence | lia].
Qed.

(** What a successful [build_tx_body] has read from the random source. *)
Lemma build_tx_body_nonce network chainTag0 to0 value0 data0 gas0 dependsOn0 w body w' :
  build_tx_body network chainTag0 to0 value0 data0 gas0 dependsOn0 w = (Ok body, w') ->
  nonce body = be_value (rng w <$> seq (drawn w) 8)
  /\ rng w' = rng w /\ drawn w' = (drawn w + 8)%nat.
Proof.
  unfold build_tx_body. intros H.
  apply bind_inv_ok in H as (block & w2 & Hblock & H).
  apply get_block_rng in Hblock as [Hrng Hdrawn].
  apply bind_inv_ok in H as (ref & w3 & Href & H).
  unfold lift in Href. injection Href as _ <-.
  apply bind_inv_ok in H as (n & w4 & Hnonce & H).
  rewrite calc_nonce_run, <- Hrng, <- Hdrawn in *.
  remember (be_value (rng w2 <$> seq (drawn w2) 8)) as v eqn:Ev.
  injection Hnonce as <- <-. injection H as <- <-. auto.
Qed.

Lemma draws_build_tx ext priv network chainTag0 to0 value0 data0 gas0 dependsOn0 :
  draws_on_success 8 (build_tx ext priv network chainTag0 to0 value0 data0 gas0 dependsOn0).
Proof.
  unfold build_tx. apply (draws_bind 8 0).
  - intros w body w' H. apply build_tx_body_nonce in H. tauto.
  - intros body. apply draws_keeps, keeps_lift.
Qed.

Lemma draws_deploy ext network chainTag0 contract_meta types params priv to0 value0 gas0 :
  draws_on_success 8
    (deploy ext network chainTag0 contract_meta types params priv to0 value0 gas0).
Proof.
  unfold deploy. apply (draws_bind 8 0).
  - unfold deploy_submit.
    do 3 (apply (draws_bind 0 8); [apply draws_keeps; auto with keeps | intros ?]).
    apply (draws_bind 8 0); [apply draws_build_tx | intros raw].
    apply draws_keeps.
    pose proof keeps_post_tx. pose proof keeps_wait_for_receipt. keeps_steps.
  - intros receipt. apply draws_keeps. unfold deploy_result. keeps_steps.
Qed.

Lemma draws_call_function ext network chainTag0 abi_dict func_params priv to0 value0 gas0 :
  draws_on_success 8
    (call_function ext network chainTag0 abi_dict func_params priv to0 value0 gas0).
Proof.
  unfold call_function. apply (draws_bind 8 0).
  - unfold call_submit.
    do 6 (apply (draws_bind 0 8); [apply draws_keeps; auto with keeps | intros ?]).
    apply (draws_bind 8 0); [apply draws_build_tx | intros raw].
    apply draws_keeps.
    pose proof keeps_post_tx. pose proof keeps_wait_for_receipt. keeps_steps.
  - intros [tx_id receipt]. apply draws_keeps. unfold call_result. keeps_steps.
Qed.

(** X22: a run of the script that ends without an exception has taken
    exactly 32 bytes from the random source, 8 for the nonce of each of its
    four transactions. *)
Theorem main_random_bytes (ext : Externals) (argv : list string) (w w' : World) :
  main ext argv w = (Ok tt, w') ->
  rng w' = rng w /\ drawn w' = (drawn w + 32)%nat.
Proof.
  intros H. cut (draws_on_success 32 (main ext argv)); [intros D; exact (D _ _ _ H) |].
  clear H. unfold main.
  do 4 (apply (draws_bind 0 32); [apply draws_keeps, keeps_lift | intros ?]).
  apply (draws_bind 0 32); [apply draws_keeps, keeps_preflight | intros _].
  unfold steps.
  apply (draws_bind 8 24).
  { unfold step_vvet.
    do 2 (apply (draws_bind 0 8); [apply draws_keeps; auto with keeps | intros ?]).
    apply draws_deploy. }
  intros v. apply (draws_bind 8 16).
  { unfold step_factory.
    do 2 (apply (draws_bind 0 8); [apply draws_keeps; auto with keeps | intros ?]).
    apply (draws_bind 8 0); [apply draws_deploy |].
    intros; apply draws_keeps, keeps_ret. }
  intros [f b]. apply (draws_bind 8 8).
  { unfold step_router.
    do 2 (apply (draws_bind 0 8); [apply draws_keeps; auto with keeps | intros ?]).
    apply draws_deploy. }
  intros c. apply (draws_bind 8 0).
  { unfold step_pair.
    do 2 (apply (draws_bind 0 8); [apply draws_keeps; auto with keeps | intros ?]).
    apply draws_call_function. }
  intros; apply draws_keeps, keeps_ret.
Qed.

Lemma main_random_bytes_witness :
  rng (snd (main Scenario.ext Scenario.argv
              (Scenario.world (Scenario.account "0x2f6fee83785d4240000" false)
                 [Scenario.created "0xA"; Scenario.created "0xB";
                  Scenario.created "0xC"; Scenario.created "0xD"])))
  = rng (Scenario.world (Scenario.account "0x2f6fee83785d4240000" false)
           [Scenario.created "0xA"; Scenario.created "0xB";
            Scenario.created "0xC"; Scenario.created "0xD"])
  /\ drawn (snd (main Scenario.ext Scenario.argv
                   (Scenario.world (Scenario.account "0x2f6fee83785d4240000" false)
                      [Scenario.created "0xA"; Scenario.created "0xB";
                       Scenario.created "0xC"; Scenario.created "0xD"])))
     = (drawn (Scenario.world (Scenario.account "0x2f6fee83785d4240000" false)
                 [Scenario.created "0xA"; Scenario.created "0xB";
                  Scenario.created "0xC"; Scenario.created "0xD"]) + 32)%nat.
Proof.
  apply (main_random_bytes Scenario.ext Scenario.argv
           (Scenario.world (Scenario.account "0x2f6fee83785d4240000" false)
              [Scenario.created "0xA"; Scenario.created "0xB";
               Scenario.created "0xC"; Scenario.created "0xD"])).
  vm_compute. reflexivity.
Defined.

(** X23: two transaction bodies built one after the other, with anything
    in between that leaves the random source alone, have nonces read from
    two adjacent and disjoint runs of 8 bytes. *)
Theorem successive_nonces (network1 network2 : string) (chainTag1 chainTag2 : Z)
    (to1 to2 : pyval) (value1 value2 : Z) (data1 data2 : string) (gas1 gas2 : Z)
    (dependsOn1 dependsOn2 : pyval) (w w1 w2 w3 : World) (body1 body2 : TxBody) :
  build_tx_body network1 chainTag1 to1 value1 data1 gas1 dependsOn1 w = (Ok body1, w1) ->
  rng w2 = rng w1 ->
  drawn w2 = drawn w1 ->
  build_tx_body network2 chainTag2 to2 value2 data2 gas2 dependsOn2 w2 = (Ok body2, w3) ->
  nonce body1 = be_value (rng w <$> seq (drawn w) 8)
  /\ nonce body2 = be_value (rng w <$> seq (drawn w + 8) 8)
  /\ drawn w3 = (drawn w + 16)%nat.
Proof.
  intros H1 Hrng Hdrawn H2.
  apply build_tx_body_nonce in H1 as (N1 & R1 & D1).
  apply build_tx_body_nonce in H2 as (N2 & R2 & D2).
  rewrite N1, N2, D2, Hrng, Hdrawn, R1, D1. repeat split. lia.
Qed.

Lemma successive_nonces_witness :
  221843196703435130
  = be_value (rng (Scenario.world VNone []) <$> seq (drawn (Scenario.world VNone [])) 8)
  /\ 10060106702681862400
     = be_value (rng (Scenario.world VNone []) <$> seq (drawn (Scenario.world VNone []) + 8) 8)
  /\ drawn (snd (build_tx_body "http://node/" 164 (VStr "0xB") 0 "0xc9c65396" 2500000 VNone
                   (snd (build_tx_body "http://node" 164 VNone 0 "0x6080" 3000000 VNone
                           (Scenario.world VNone [])))))
     = (drawn (Scenario.world VNone []) + 16)%nat.
Proof.
  refine (successive_nonces "http://node" "http://node/" 164 164 VNone (VStr "0xB") 0 0
            "0x6080" "0xc9c65396" 3000000 2500000 VNone VNone
            (Scenario.world VNone [])
            (snd (build_tx_body "http://node" 164 VNone 0 "0x6080" 3000000 VNone
                    (Scenario.world VNone [])))
            (snd (build_tx_body "http://node" 164 VNone 0 "0x6080" 3000000 VNone
                    (Scenario.world VNone [])))
            _
            {| chainTag := 164; blockRef := VStr "0x00000a1b2c3d4e5f"; expiration := 32;
               clauses := [ {| to := VNone; value := 0; data := "0x6080" |} ];
               gasPriceCoef := 0; gas := 3000000; dependsOn := VNone;
               nonce := 221843196703435130 |}
            {| chainTag := 164; blockRef := VStr "0x00000a1b2c3d4e5f"; expiration := 32;
               clauses := [ {| to := VStr "0xB"; value := 0; data := "0xc9c65396" |} ];
               gasPriceCoef := 0; gas := 2500000; dependsOn := VNone;
               nonce := 10060106702681862400 |}
            _ eq_refl eq_refl _);
    vm_compute; reflexivity.
Defined.

(** ** Failures before the first request *)

(** X24: when [abi.FUNCTION] rejects the descriptor, [call_function] fails
    in an untouched world, and when the call cannot be encoded it fails
    after its three printed lines: in both cases before any request. *)
Theorem call_function_rejected (ext : Externals) (network : string) (chainTag0 : Z)
    (abi_dict func_params : pyval) (priv : string) (to0 : pyval) (value0 gas0 : Z)
    (w : World) (e : exn) :
  (abi_FUNCTION ext abi_dict = Raise e ->
     call_function ext network chainTag0 abi_dict func_params priv to0 value0 gas0 w
     = (Raise e, w))
  /\ (forall f1 name,
        abi_FUNCTION ext abi_dict = Ok f1 ->
        getitem f1 "name" = Ok name ->
        function_encode ext f1 func_params = Raise e ->
        exists w',
          call_function ext network chainTag0 abi_dict func_params priv to0 value0 gas0 w
          = (Raise e, w')
          /\ sent w' = sent w /\ drawn w' = drawn w
          /\ stdout w' = ("params: " ++ py_str ext func_params)
                           :: ("function: " ++ py_str ext name)
                           :: ("Call contract: " ++ py_str ext to0) :: stdout w).
Proof.
  unfold call_function, call_submit. split.
  - intros Hf. rewrite Hf. reflexivity.
  - intros f1 name Hf Hname Henc. rewrite Hf.
    erewrite bind_raise
      by (do 2 (erewrite bind_ok by reflexivity; cbv beta); rewrite Hname;
          do 3 (erewrite bind_ok by reflexivity; cbv beta); rewrite Henc; reflexivity).
    eexists. split; [reflexivity |]. repeat split.
Qed.

Lemma call_function_rejected_witness :
  call_function
    {| encode_list := encode_list Scenario.ext;
       derive_publicKey := derive_publicKey Scenario.ext;
       public_key_to_address := public_key_to_address Scenario.ext;
       sign := sign Scenario.ext;
       new_transaction := new_transaction Scenario.ext;
       get_signing_hash := get_signing_hash Scenario.ext;
       encode := encode Scenario.ext;
       abi_FUNCTION := fun _ => Raise LibraryError;
       function_encode := function_encode Scenario.ext;
       repr_other := repr_other Scenario.ext |}
    "http://node" 164 VNone (VList []) "00" (VStr "0xB") 0 2500000 (Scenario.world VNone [])
  = (Raise LibraryError, Scenario.world VNone []).
Proof.
  refine (proj1 (call_function_rejected _ "http://node" 164 VNone (VList []) "00" (VStr "0xB") 0
                   2500000 (Scenario.world VNone []) LibraryError) _).
  reflexivity.
Defined.

(** X25: when the node refuses the account request, the pre-flight check
    raises an exception that names the URL and carries the node's text,
    after its first printed line and that single request. *)
Theorem preflight_account_refused (ext : Externals) (NETWORK address : string) (w : World)
    (resp : Response) :
  node w (GET (_build_url NETWORK ("/accounts/" ++ address ++ "?revision=best")) :: sent w)
  = Ok resp ->
  status_code resp <> 200 ->
  exists w',
    preflight ext NETWORK address w
    = (Raise (Exception ("Cant connect to "
                         ++ _build_url NETWORK ("/accounts/" ++ address ++ "?revision=best")
                         ++ ", error " ++ text resp)), w')
    /\ sent w' = GET (_build_url NETWORK ("/accounts/" ++ address ++ "?revision=best")) :: sent w
    /\ submissions w' = submissions w
    /\ stdout w' = "Deployer Balance:" :: stdout w.
Proof.
  intros Hnode Hs. unfold preflight.
  erewrite bind_ok by reflexivity. cbv beta.
  apply Z.eqb_neq in Hs.
  erewrite bind_raise
    by (unfold get_account, mbind, M_bind, http; cbn [node sent];
        change ("?revision=" ++ "best") with "?revision=best";
        rewrite Hnode, Hs; reflexivity).
  eexists. split; [reflexivity |]. repeat split.
Qed.

Lemma preflight_account_refused_witness :
  exists w',
    preflight Scenario.ext "http://node" "0x00" (Scenario.out_of_service 500 "down")
    = (Raise (Exception ("Cant connect to "
                         ++ _build_url "http://node" ("/accounts/" ++ "0x00" ++ "?revision=best")
                         ++ ", error " ++ "down")), w')
    /\ sent w' = GET (_build_url "http://node" ("/accounts/" ++ "0x00" ++ "?revision=best"))
                   :: sent (Scenario.out_of_service 500 "down")
    /\ submissions w' = submissions (Scenario.out_of_service 500 "down")
    /\ stdout w' = "Deployer Balance:" :: stdout (Scenario.out_of_service 500 "down").
Proof.
  apply (preflight_account_refused Scenario.ext "http://node" "0x00"
           (Scenario.out_of_service 500 "down")
           {| status_code := 500; text := "down"; json := Raise ValueError |}).
  - reflexivity.
  - discriminate.
Defined.

(** ** The payload of a deployment *)

Lemma get_block_sent network id_or_number w r w' :
  get_block network id_or_number w = (r, w') ->
  sent w' = GET (_build_url network ("blocks/" ++ id_or_number)) :: sent w.
Proof.
  unfold get_block, mbind, M_bind, http. simpl.
  destruct (node w _) as [resp | e]; [| now intros [= _ <-]].
  destruct (negb _); [now intros [= _ <-] |].
  unfold lift. now intros [= _ <-].
Qed.

(** What a successful [build_tx] has signed and requested. *)
Lemma build_tx_inv ext priv network chainTag0 to0 value0 data0 gas0 dependsOn0 w raw w' :
  build_tx ext priv network chainTag0 to0 value0 data0 gas0 dependsOn0 w = (Ok raw, w') ->
  exists body,
    sign_tx ext priv body = Ok raw
    /\ clauses body = [ {| to := to0; value := value0; data := data0 |} ]
    /\ sent w' = GET (_build_url network "blocks/best") :: sent w.
Proof.
  unfold build_tx. intros H.
  apply bind_inv_ok in H as (body & w1 & Hbody & Hsign).
  unfold lift in Hsign. injection Hsign as Hsign <-.
  exists body. split; [exact Hsign |].
  unfold build_tx_body, best_block in Hbody.
  apply bind_inv_ok in Hbody as (block & w2 & Hblock & Hbody).
  apply get_block_sent in Hblock.
  apply bind_inv_ok in Hbody as (ref & w3 & Href & Hbody).
  unfold lift in Href. injection Href as _ <-.
  apply bind_inv_ok in Hbody as (n & w4 & Hnonce & Hbody).
  rewrite calc_nonce_run in Hnonce.
  remember (be_value (rng w2 <$> seq (drawn w2) 8)) as v eqn:Ev.
  injection Hnonce as <- <-. injection Hbody as <- <-.
  split; [reflexivity | exact Hblock].
Qed.

Lemma post_tx_sent network raw w r w' :
  post_tx network raw w = (r, w') ->
  sent w' = POST (_build_url network "transactions") (VDict {[ "raw" := VStr raw ]}) :: sent w.
Proof.
  unfold post_tx, mbind, M_bind, http. cbn [node sent].
  destruct (node w _) as [resp | e]; [| now intros [= _ <-]].
  destruct (negb _); [now intros [= _ <-] |].
  unfold lift. destruct (json resp) as [j | e]; now intros [= _ <-].
Qed.

(** The world a successful wait ends in. *)
Lemma wait_for_receipt_returns ext network tx_id wait_for w v w' :
  wait_for_receipt ext network tx_id wait_for w = (Ok v, w') ->
  exists k, w' = after_polls (receipt_request ext network tx_id) (S k) k w.
Proof.
  unfold wait_for_receipt. intros H.
  apply bind_inv_ok in H as (r & w1 & Hloop & H).
  destruct (truthy r) eqn:Hr; cbn [negb] in H; [| discriminate H].
  injection H as -> ->.
  apply wait_loop_inv in Hloop as [(k & u & _ & _ & _ & -> & _)
                                  | [(u & [= <-] & Hu & _) | (k & e & _ & [=] & _)]].
  - now exists k.
  - rewrite Hu in Hr by reflexivity. discriminate Hr.
Qed.

Lemma deploy_result_sent ext receipt w r w' :
  deploy_result ext receipt w = (r, w') -> sent w' = sent w.
Proof.
  unfold deploy_result, mbind, M_bind, lift, raise, print.
  destruct (is_reverted receipt) as [rev | e]; [| now intros [= _ <-]].
  destruct (truthy rev); [now intros [= _ <-] |].
  destruct (_find_created_contracts receipt) as [addrs | e]; [| now intros [= _ <-]].
  destruct (list_first addrs) as [a | e]; now intros [= _ <-].
Qed.

(** With an absent or empty list of types, what [deploy] does, the payload
    given to [build_tx] written out. *)
Lemma deploy_bare_payload ext network chainTag0 (contract_meta : gmap string pyval)
    (name : pyval) (code : bytes) (types params : pyval) priv to0 value0 gas0 w :
  contract_meta !! "contractName" = Some name ->
  contract_meta !! "bytecode" = Some (VStr (bytes_hex code)) ->
  types = VNone \/ types = VList [] ->
  deploy ext network chainTag0 (VDict contract_meta) types params priv to0 value0 gas0 w
  = (print ("Deploy contract: <" ++ py_str ext name ++ ">");;
     raw ← build_tx ext priv network chainTag0 to0 value0 ("0x" ++ bytes_hex code) gas0 VNone;
     tx_id ← post_tx network raw;
     print ("tx: " ++ py_str ext tx_id);;
     receipt ← wait_for_receipt ext network tx_id 20;
     deploy_result ext receipt) w.
Proof.
  intros Hname Hcode Htypes.
  assert (P : deploy_payload ext (VDict contract_meta) types params = Ok code).
  { unfold deploy_payload, get_bytecode. cbn [getitem]. rewrite Hcode, result_bind_ok.
    destruct Htypes as [-> | ->]; cbn [truthy negb length Nat.eqb]; apply bytes_fromhex_bytes_hex. }
  unfold deploy, deploy_submit. cbn [getitem]. rewrite Hname, P.
  unfold mbind, M_bind, lift, print.
  destruct (build_tx _ _ _ _ _ _ _ _ _ _) as [[raw | e] w2]; [| reflexivity].
  destruct (post_tx network raw w2) as [[tx_id | e] w3]; [| reflexivity].
  destruct (wait_for_receipt _ _ _ _ _) as [[receipt | e] w4]; reflexivity.
Qed.

(** C10: an empty list of constructor types is treated as an absent one.
    For an artifact whose bytecode is the hexadecimal text of [code], in
    both cases [deploy] gives [build_tx] the payload [0x] and that text,
    with nothing appended; a call that returns has sent, after the request
    of the head block, one transaction whose single clause carries this
    payload, then the receipt polls; and the calls with [([], [])] and with
    [(None, None)] behave alike. *)
Theorem deploy_empty_types_as_absent (ext : Externals) (network : string) (chainTag0 : Z)
    (contract_meta : gmap string pyval) (name : pyval) (code : bytes) (types params : pyval)
    (priv : string) (to0 : pyval) (value0 gas0 : Z) :
  contract_meta !! "contractName" = Some name ->
  contract_meta !! "bytecode" = Some (VStr (bytes_hex code)) ->
  types = VNone \/ types = VList [] ->
  (forall w,
     deploy ext network chainTag0 (VDict contract_meta) types params priv to0 value0 gas0 w
     = (print ("Deploy contract: <" ++ py_str ext name ++ ">");;
        raw ← build_tx ext priv network chainTag0 to0 value0 ("0x" ++ bytes_hex code) gas0 VNone;
        tx_id ← post_tx network raw;
        print ("tx: " ++ py_str ext tx_id);;
        receipt ← wait_for_receipt ext network tx_id 20;
        deploy_result ext receipt) w)
  /\ (forall w a w',
        deploy ext network chainTag0 (VDict contract_meta) types params priv to0 value0 gas0 w
        = (Ok a, w') ->
        exists body raw tx_id k,
          clauses body = [ {| to := to0; value := value0; data := "0x" ++ bytes_hex code |} ]
          /\ sign_tx ext priv body = Ok raw
          /\ sent w'
             = (repeat (receipt_request ext network tx_id) (S k)
                ++ POST (_build_url network "transactions") (VDict {[ "raw" := VStr raw ]})
                :: GET (_build_url network "blocks/best") :: sent w)%list)
  /\ (forall w,
        deploy ext network chainTag0 (VDict contract_meta) (VList []) (VList []) priv to0 value0
          gas0 w
        = deploy ext network chainTag0 (VDict contract_meta) VNone VNone priv to0 value0 gas0 w).
Proof.
  intros Hname Hcode Htypes. split; [| split].
  - intros w. now apply deploy_bare_payload.
  - intros w a w' H.
    rewrite (deploy_bare_payload _ _ _ _ name code) in H by assumption.
    apply bind_inv_ok in H as ([] & w1 & Hp1 & H). injection Hp1 as <-.
    apply bind_inv_ok in H as (raw & w2 & Hbuild & H).
    apply build_tx_inv in Hbuild as (body & Hsign & Hclauses & Hsent2).
    apply bind_inv_ok in H as (tx_id & w3 & Hpost & H).
    apply post_tx_sent in Hpost.
    apply bind_inv_ok in H as ([] & w4 & Hp2 & H). injection Hp2 as <-.
    apply bind_inv_ok in H as (receipt & w5 & Hwait & H).
    apply wait_for_receipt_returns in Hwait as (k & ->).
    apply deploy_result_sent in H.
    exists body, raw, tx_id, k. split; [exact Hclauses |]. split; [exact Hsign |].
    rewrite H. unfold after_polls. cbn [sent]. rewrite Hpost, Hsent2. reflexivity.
  - intros w.
    rewrite (deploy_bare_payload _ _ _ _ name code (VList [])) by auto.
    now rewrite (deploy_bare_payload _ _ _ _ name code VNone) by auto.
Qed.

Lemma deploy_empty_types_as_absent_witness :
  exists body raw tx_id k,
    clauses body = [ {| to := VNone; value := 0; data := "0x" ++ bytes_hex [Byte.x60; Byte.x80] |} ]
    /\ sign_tx Scenario.ext "00" body = Ok raw
    /\ sent (snd (deploy Scenario.ext "http://node" 164 Scenario.artifact (VList []) (VList [])
                    "00" VNone 0 3000000 (Scenario.world VNone [VNone; Scenario.created "0xA"])))
       = (repeat (receipt_request Scenario.ext "http://node" tx_id) (S k)
          ++ POST (_build_url "http://node" "transactions") (VDict {[ "raw" := VStr raw ]})
          :: GET (_build_url "http://node" "blocks/best")
          :: sent (Scenario.world VNone [VNone; Scenario.created "0xA"]))%list.
Proof.
  refine (proj1 (proj2 (deploy_empty_types_as_absent Scenario.ext "http://node" 164
                          {[ "contractName" := VStr "C";
                             "bytecode" := VStr "6080";
                             "abi" := VList [ VDict {[ "type" := VStr "constructor" ]};
                                              VDict {[ "name" := VStr "createPair";
                                                       "type" := VStr "function" ]};
                                              VDict {[ "name" := VStr "createPair";
                                                       "type" := VStr "event" ]} ] ]}
                          (VStr "C") [Byte.x60; Byte.x80] (VList []) (VList []) "00" VNone 0
                          3000000 _ _ _))
            (Scenario.world VNone [VNone; Scenario.created "0xA"]) (VStr "0xA") _ _).
  - vm_compute. reflexivity.
  - vm_compute. reflexivity.
  - now right.
  - vm_compute. reflexivity.
Defined.
